(** * Shipping Cost Analyzer: the reconciliation engine of [app.py]

    A shallow embedding of [translate_country], [process_data] and
    [identify_issues] and of the pandas primitives they call, followed by the
    properties of the normaliser, the outer join and the issue classifier.

    Modelling conventions.
    - A cell of a numeric column is a [float]: an exact rational, one of the
      two infinities, or [NaN], which is pandas' missing value. Rounding of
      the binary representation is abstracted away; division by zero,
      infinities and missing values behave as in IEEE arithmetic.
    - A cell of an object column is a [text]: a string, or [None] for the
      missing value.
    - A data frame is its list of column labels together with its rows. A row
      is a record with one slot per column the program reads or writes; a slot
      whose label is not among the frame's columns is never read, because
      every column access first looks the label up and raises [KeyError].
    - Python exceptions are the [Raise] outcomes of the [result] monad.

    Scope. The frames are the ones the two readers of [main] hand over, with
    the cells typed as above: the numeric columns hold numbers or missing
    values, the object columns strings or missing values, and no label
    occurs twice in a frame after renaming. What pandas does outside that
    scope is not represented: a key column that holds no string at all is
    read as a float column, on which [.str] raises [AttributeError]; a
    label carried twice makes [df[label]] a frame; a frame without lines
    has object columns, which [.round] refuses. The floats have one zero
    and no rounding error: a product or a quotient below is the exact one,
    which the code computes up to the rounding of binary floats, and no
    property rests on the sign of a zero or on overflow. For these reasons the
    properties of [process_data] and [identify_issues] are stated about the
    runs that return, and the ones about exceptions name the exception of a
    missing label only. *)

From Stdlib Require Import QArith Qround Lqa String.
From stdpp Require Import gmap strings list sorting.

Open Scope string_scope.
Open Scope list_scope.

(** ** Numeric cells *)

Inductive float : Type :=
  | Fin (q : Q)
  | PInf
  | NInf
  | NaN.

(** An object cell: [None] is the missing value. *)
Abbreviation text := (option string).

Definition Qsign (q : Q) : Z := Z.sgn (Qnum q).

Definition inf_of_sign (s : Z) : float :=
  match s with
  | Z0 => NaN
  | Zpos _ => PInf
  | Zneg _ => NInf
  end.

Definition fmul (a b : float) : float :=
  match a, b with
  | NaN, _ | _, NaN => NaN
  | Fin x, Fin y => Fin (Qred (x * y))
  | Fin x, PInf | PInf, Fin x => inf_of_sign (Qsign x)
  | Fin x, NInf | NInf, Fin x => inf_of_sign (- Qsign x)
  | PInf, PInf | NInf, NInf => PInf
  | PInf, NInf | NInf, PInf => NInf
  end.

Definition fdiv (a b : float) : float :=
  match a, b with
  | NaN, _ | _, NaN => NaN
  | Fin x, Fin y =>
      if Z.eqb (Qsign y) 0 then inf_of_sign (Qsign x) else Fin (Qred (x / y))
  | Fin _, PInf | Fin _, NInf => Fin 0
  | PInf, Fin y => if Z.ltb (Qsign y) 0 then NInf else PInf
  | NInf, Fin y => if Z.ltb (Qsign y) 0 then PInf else NInf
  | PInf, PInf | PInf, NInf | NInf, PInf | NInf, NInf => NaN
  end.

Definition fsub (a b : float) : float :=
  match a, b with
  | NaN, _ | _, NaN => NaN
  | Fin x, Fin y => Fin (Qred (x - y))
  | Fin _, PInf => NInf
  | Fin _, NInf => PInf
  | PInf, Fin _ => PInf
  | NInf, Fin _ => NInf
  | PInf, NInf => PInf
  | NInf, PInf => NInf
  | PInf, PInf | NInf, NInf => NaN
  end.

(** Rounding to the nearest integer, ties to even. *)
Definition rint (q : Q) : Z :=
  let f := Qfloor q in
  match Qcompare (2 * (q - inject_Z f)) 1 with
  | Lt => f
  | Gt => (f + 1)%Z
  | Eq => if Z.even f then f else (f + 1)%Z
  end.

(** [Series.round(2)]: scale by 100, round, scale back. *)
Definition fround2 (a : float) : float :=
  match a with
  | Fin q => Fin (Qred (inject_Z (rint (q * 100)) / 100))
  | _ => a
  end.

Definition float_notna (a : float) : bool :=
  match a with
  | NaN => false
  | _ => true
  end.

Definition text_notna (a : text) : bool :=
  match a with
  | None => false
  | Some _ => true
  end.

(** ** Exceptions *)

Inductive exn : Type :=
  | KeyError (missing : list string)
  | ValueError (msg : string)
  | IndexError.

Inductive result (A : Type) : Type :=
  | Ok (a : A)
  | Raise (e : exn).

Arguments Ok {A} a.
Arguments Raise {A} e.

#[global] Instance result_ret : MRet result := λ A a, Ok a.

#[global] Instance result_bind : MBind result := λ A B f m,
  match m with
  | Ok a => f a
  | Raise e => Raise e
  end.

#[global] Instance result_fmap : FMap result := λ A B f m,
  match m with
  | Ok a => Ok (f a)
  | Raise e => Raise e
  end.

(** Run [f] over a list, stopping at the first exception. *)
Fixpoint for_each {A B : Type} (f : A → result B) (l : list A) : result (list B) :=
  match l with
  | [] => Ok []
  | x :: l' => y ← f x; ys ← for_each f l'; Ok (y :: ys)
  end.

(** ** Data frames *)

Record DataFrame (A : Type) : Type := mkDataFrame {
  columns : list string;
  rows : list A
}.

Arguments mkDataFrame {A} columns rows.
Arguments columns {A} d.
Arguments rows {A} d.

Inductive indicator : Type := left_only | right_only | both.

#[global] Instance indicator_eq_dec : EqDecision indicator.
Proof. solve_decision. Defined.

(** Lexicographic order on strings, by character code. *)
Definition string_le (a b : string) : Prop := String.leb a b = true.

#[global] Instance string_le_dec a b : Decision (string_le a b).
Proof. unfold string_le. apply _. Defined.

(** The order of [value_counts]: larger counts first. *)
Definition count_ge (a b : string * nat) : Prop := (b.2 ≤ a.2)%nat.

#[global] Instance count_ge_dec a b : Decision (count_ge a b).
Proof. unfold count_ge. apply _. Defined.

(** First-occurrence order of the distinct elements of a list. *)
Fixpoint unique {A : Type} `{EqDecision A} (l : list A) : list A :=
  match l with
  | [] => []
  | x :: l' => x :: filter (λ y, y ≠ x) (unique l')
  end.

(** The positions, in increasing order and counted from [i], at which [k]
    occurs in [keys]. *)
Fixpoint positions (k : text) (keys : list text) (i : nat) : list nat :=
  match keys with
  | [] => []
  | x :: keys' =>
      if decide (x = k) then i :: positions k keys' (S i)
      else positions k keys' (S i)
  end.

(** [s.str.contains(pat)] for a pattern without regular-expression
    metacharacters: [pat] occurs somewhere in [s]. *)
Fixpoint str_contains (pat s : string) : bool :=
  String.prefix pat s ||
  match s with
  | EmptyString => false
  | String _ s' => str_contains pat s'
  end.

(** ** Rows

    One record per frame the program handles. The slots carry the labels the
    columns have after renaming. *)

(** A line of the carrier's ledger. [shipping_cost_usd] and
    [country_from_shipping] are the two columns [process_data] adds. *)
Module Shipping.
Record row : Type := mk {
  tracking_number : text;
  ship_date : text;
  shipping_cost_rmb : float;
  country_chinese : text;
  weight_kg : float;
  internal_order_id : text;
  shipping_cost_usd : float;
  country_from_shipping : text
}.

Definition set_shipping_cost_usd (r : row) (v : float) : row :=
  mk (tracking_number r) (ship_date r) (shipping_cost_rmb r) (country_chinese r)
     (weight_kg r) (internal_order_id r) v (country_from_shipping r).

Definition set_country_from_shipping (r : row) (v : text) : row :=
  mk (tracking_number r) (ship_date r) (shipping_cost_rmb r) (country_chinese r)
     (weight_kg r) (internal_order_id r) (shipping_cost_usd r) v.
End Shipping.

(** A line of the sales-channel export. *)
Module Shopify.
Record row : Type := mk {
  order_number : text;
  order_date : text;
  tracking_number : text;
  net_payout : float;
  country : text;
  product_cost : float
}.
End Shopify.

(** A line of the merged frame. *)
Module Merged.
Record row : Type := mk {
  order_number : text;
  order_date : text;
  tracking_number : text;
  net_payout : float;
  country : text;
  product_cost : float;
  shipping_cost_usd : float;
  shipping_cost_rmb : float;
  weight_kg : float;
  ship_date : text;
  country_from_shipping : text;
  _merge : indicator;
  shipping_pct : float;
  profit : float
}.

Definition set_shipping_pct (r : row) (v : float) : row :=
  mk (order_number r) (order_date r) (tracking_number r) (net_payout r) (country r)
     (product_cost r) (shipping_cost_usd r) (shipping_cost_rmb r) (weight_kg r)
     (ship_date r) (country_from_shipping r) (_merge r) v (profit r).

Definition set_profit (r : row) (v : float) : row :=
  mk (order_number r) (order_date r) (tracking_number r) (net_payout r) (country r)
     (product_cost r) (shipping_cost_usd r) (shipping_cost_rmb r) (weight_kg r)
     (ship_date r) (country_from_shipping r) (_merge r) (shipping_pct r) v.
End Merged.

Module pd.

(** [df.rename(columns=mapper)]: relabel the columns found in [mapper]. *)
Definition rename {A} (mapper : gmap string string) (df : DataFrame A) : DataFrame A :=
  mkDataFrame ((λ c, default c (mapper !! c)) <$> columns df) (rows df).

(** [df[c]]: the column labelled [c], read through the slot [get]; the
    label occurs at most once in the frame. *)
Definition getitem {A V} (df : DataFrame A) (c : string) (get : A → V) : result (list V) :=
  if decide (c ∈ columns df) then Ok (get <$> rows df) else Raise (KeyError [c]).

(** The labels after an assignment to the column [c]. *)
Definition add_label (c : string) (cols : list string) : list string :=
  if decide (c ∈ cols) then cols else cols ++ [c].

(** [df[c] = values]: overwrite the column, or append it when it is new. *)
Definition setitem {A V} (df : DataFrame A) (c : string) (set : A → V → A)
    (values : list V) : DataFrame A :=
  mkDataFrame (add_label c (columns df)) (zip_with set (rows df) values).

(** [df[[c1, ..., cn]]]: keep the listed columns; the labels that are not
    in the frame are all named by the [KeyError]. *)
Definition select {A} (df : DataFrame A) (cs : list string) : result (DataFrame A) :=
  match filter (λ c, c ∉ columns df) cs with
  | [] => Ok (mkDataFrame cs (rows df))
  | missing => Raise (KeyError missing)
  end.

(** [df[mask]]: the rows at which the boolean mask holds. *)
Definition loc {A} (df : DataFrame A) (mask : list bool) : DataFrame A :=
  mkDataFrame (columns df) ((filter (λ p, p.2 = true) (zip (rows df) mask)).*1).

(** [row[c]] inside a loop over the rows. *)
Definition row_getitem {A V} (df : DataFrame A) (r : A) (c : string) (get : A → V) : result V :=
  if decide (c ∈ columns df) then Ok (get r) else Raise (KeyError [c]).

(** [s.iloc[0]] *)
Definition iloc0 {V} (s : list V) : result V :=
  match s with
  | [] => Raise IndexError
  | x :: _ => Ok x
  end.

(** Elementwise [!=] of two object columns: a missing value differs from
    everything, itself included. *)
Definition ne (a b : text) : bool :=
  match a, b with
  | Some x, Some y => bool_decide (x ≠ y)
  | _, _ => true
  end.

(** [s.str.contains(pat, na=False)] on one cell of a column that holds
    strings. *)
Definition str_contains_na_false (pat : string) (a : text) : bool :=
  match a with
  | Some s => str_contains pat s
  | None => false
  end.

(** The key groups of an outer join, in the order in which the join emits
    them: the distinct strings in lexicographic order, then the missing
    value when some key is missing. *)
Definition join_groups (lk rk : list text) : list text :=
  (Some <$> merge_sort string_le (remove_dups (omap id (lk ++ rk))))
  ++ (if decide (None ∈ lk ++ rk) then [None] else []).

(** The index pairs emitted for one key group: the cross product of the
    left and right positions, left-major; the rows of a side that has no
    counterpart are emitted once each, with no index on the other side. *)
Definition join_group (lk rk : list text) (k : text) : list (option nat * option nat) :=
  let lg := positions k lk 0 in
  let rg := positions k rk 0 in
  match lg, rg with
  | _, [] => (λ i, (Some i, None)) <$> lg
  | [], _ => (λ j, (None, Some j)) <$> rg
  | _, _ => i ← lg; (λ j, (Some i, Some j)) <$> rg
  end.

(** The left and right indexers of [how='outer']. *)
Definition full_outer_join (lk rk : list text) : list (option nat * option nat) :=
  k ← join_groups lk rk; join_group lk rk k.

(** [s.value_counts()]: the distinct non-missing values with their number
    of occurrences, most frequent first. Values with the same count come
    here in the order of their first occurrence; pandas leaves their order
    to its hash table, and no property below depends on it. *)
Definition value_counts (s : list text) : list (string * nat) :=
  let vals := omap id s in
  merge_sort count_ge
    ((λ v, (v, length (filter (λ x, x = v) vals))) <$> unique vals).

(** The labels of the merged frame: the left columns, the right columns
    without the key, and the indicator; a label carried by both sides gets
    the suffix [_x] on the left and [_y] on the right. *)
Definition merged_columns (lcols rcols : list string) (key : string) : list string :=
  let rcols' := filter (λ c, c ≠ key) rcols in
  ((λ c, if decide (c ∈ rcols') then c +:+ "_x" else c) <$> lcols)
  ++ ((λ c, if decide (c ∈ lcols) then c +:+ "_y" else c) <$> rcols')
  ++ ["_merge"].

(** One output row of the join. The key column is filled from whichever
    side is present; the columns of an absent side are missing values. *)
Definition merge_row (l : option Shopify.row) (r : option Shipping.row) : Merged.row :=
  Merged.mk
    (l ≫= Shopify.order_number)
    (l ≫= Shopify.order_date)
    (match l with
     | Some x => Shopify.tracking_number x
     | None => r ≫= Shipping.tracking_number
     end)
    (from_option Shopify.net_payout NaN l)
    (l ≫= Shopify.country)
    (from_option Shopify.product_cost NaN l)
    (from_option Shipping.shipping_cost_usd NaN r)
    (from_option Shipping.shipping_cost_rmb NaN r)
    (from_option Shipping.weight_kg NaN r)
    (r ≫= Shipping.ship_date)
    (r ≫= Shipping.country_from_shipping)
    (match l, r with
     | Some _, Some _ => both
     | Some _, None => left_only
     | None, _ => right_only
     end)
    NaN NaN.

(** [pd.merge(left, right, on='tracking_number', how='outer',
    indicator=True)] *)
Definition merge (left : DataFrame Shopify.row) (right : DataFrame Shipping.row)
    : result (DataFrame Merged.row) :=
  rk ← getitem right "tracking_number" Shipping.tracking_number;
  lk ← getitem left "tracking_number" Shopify.tracking_number;
  if decide ("_left_indicator" ∈ columns left ++ columns right)
  then Raise (ValueError "Cannot use `indicator=True` option when data contains a column named _left_indicator")
  else if decide ("_right_indicator" ∈ columns left ++ columns right)
  then Raise (ValueError "Cannot use `indicator=True` option when data contains a column named _right_indicator")
  else if decide ("_merge" ∈ columns left ++ columns right)
  then Raise (ValueError "Cannot use name of an existing column for indicator column")
  else
    Ok (mkDataFrame
          (merged_columns (columns left) (columns right) "tracking_number")
          ((λ p, merge_row (p.1 ≫= (rows left !!.)) (p.2 ≫= (rows right !!.)))
             <$> full_outer_join lk rk)).

End pd.

(** ** The program *)

(** Chinese to English country mapping *)
Definition COUNTRY_MAP : gmap string string := list_to_map [
  ("美国", "United States");
  ("英国", "United Kingdom");
  ("澳大利亚", "Australia");
  ("爱尔兰", "Ireland");
  ("加拿大", "Canada");
  ("荷兰", "Netherlands");
  ("挪威", "Norway");
  ("阿联酋", "United Arab Emirates");
  ("德国", "Germany");
  ("丹麦", "Denmark");
  ("以色列", "Israel");
  ("瑞典", "Sweden");
  ("芬兰", "Finland");
  ("瑞士", "Switzerland");
  ("新西兰", "New Zealand");
  ("法国", "France");
  ("意大利", "Italy");
  ("西班牙", "Spain");
  ("比利时", "Belgium");
  ("奥地利", "Austria");
  ("波兰", "Poland");
  ("葡萄牙", "Portugal");
  ("日本", "Japan");
  ("韩国", "South Korea");
  ("新加坡", "Singapore");
  ("香港", "Hong Kong");
  ("台湾", "Taiwan");
  ("马来西亚", "Malaysia");
  ("泰国", "Thailand");
  ("印度", "India");
  ("墨西哥", "Mexico");
  ("巴西", "Brazil");
  ("南非", "South Africa");
  ("希腊", "Greece");
  ("捷克", "Czech Republic");
  ("匈牙利", "Hungary");
  ("罗马尼亚", "Romania");
  ("斯洛伐克", "Slovakia");
  ("斯洛文尼亚", "Slovenia");
  ("克罗地亚", "Croatia");
  ("保加利亚", "Bulgaria");
  ("塞浦路斯", "Cyprus");
  ("爱沙尼亚", "Estonia");
  ("拉脱维亚", "Latvia");
  ("立陶宛", "Lithuania");
  ("卢森堡", "Luxembourg");
  ("马耳他", "Malta");
  ("冰岛", "Iceland");
  ("土耳其", "Turkey");
  ("俄罗斯", "Russia");
  ("乌克兰", "Ukraine");
  ("沙特阿拉伯", "Saudi Arabia");
  ("卡塔尔", "Qatar");
  ("科威特", "Kuwait");
  ("巴林", "Bahrain");
  ("阿曼", "Oman");
  ("菲律宾", "Philippines");
  ("印度尼西亚", "Indonesia");
  ("越南", "Vietnam")
].

Definition RMB_TO_USD : float := Fin (139 # 1000).

(** Translate Chinese country name to English:
    [COUNTRY_MAP.get(chinese_name, chinese_name)]. *)
Definition translate_country (chinese_name : text) : text :=
  from_option Some chinese_name (chinese_name ≫= (COUNTRY_MAP !!.)).

Definition shipping_renames : gmap string string := list_to_map [
  ("物流单号", "tracking_number");
  ("收货时间", "ship_date");
  ("总金额", "shipping_cost_rmb");
  ("国家/计费分区", "country_chinese");
  ("计费重", "weight_kg");
  ("客户单号", "internal_order_id")
].

Definition shopify_renames : gmap string string := list_to_map [
  ("Order", "order_number");
  ("Order created at date", "order_date");
  ("Tracking number", "tracking_number");
  ("Net payout", "net_payout");
  ("Shipping country", "country");
  ("Cost", "product_cost")
].

(** Process and merge the two dataframes. *)
Definition process_data (shipping_df : DataFrame Shipping.row)
    (shopify_df : DataFrame Shopify.row)
    : result (DataFrame Merged.row * DataFrame Shipping.row * DataFrame Shopify.row) :=
  (* Rename shipping columns for clarity *)
  let shipping_df := pd.rename shipping_renames shipping_df in
  (* Convert shipping cost to USD *)
  rmb ← pd.getitem shipping_df "shipping_cost_rmb" Shipping.shipping_cost_rmb;
  let shipping_df :=
    pd.setitem shipping_df "shipping_cost_usd" Shipping.set_shipping_cost_usd
      ((λ x, fmul x RMB_TO_USD) <$> rmb) in
  (* Translate country names *)
  chinese ← pd.getitem shipping_df "country_chinese" Shipping.country_chinese;
  let shipping_df :=
    pd.setitem shipping_df "country_from_shipping" Shipping.set_country_from_shipping
      (translate_country <$> chinese) in
  (* Rename Shopify columns *)
  let shopify_df := pd.rename shopify_renames shopify_df in
  (* Merge on tracking number *)
  right ← pd.select shipping_df
    ["tracking_number"; "shipping_cost_usd"; "shipping_cost_rmb"; "weight_kg";
     "ship_date"; "country_from_shipping"];
  merged_df ← pd.merge shopify_df right;
  (* Calculate shipping as % of net payout *)
  cost ← pd.getitem merged_df "shipping_cost_usd" Merged.shipping_cost_usd;
  payout ← pd.getitem merged_df "net_payout" Merged.net_payout;
  let merged_df :=
    pd.setitem merged_df "shipping_pct" Merged.set_shipping_pct
      (fround2 <$> ((λ x, fmul x (Fin 100)) <$> zip_with fdiv cost payout)) in
  (* Calculate profit *)
  payout ← pd.getitem merged_df "net_payout" Merged.net_payout;
  product ← pd.getitem merged_df "product_cost" Merged.product_cost;
  cost ← pd.getitem merged_df "shipping_cost_usd" Merged.shipping_cost_usd;
  let merged_df :=
    pd.setitem merged_df "profit" Merged.set_profit
      (zip_with fsub (zip_with fsub payout product) cost) in
  Ok (merged_df, shipping_df, shopify_df).

(** ** The issue report *)

Module UnmatchedShipment.
Record entry : Type := mk {
  tracking : text;
  shipping_cost : float;
  ship_date : text;
  country : text
}.
End UnmatchedShipment.

Module UnmatchedOrder.
Record entry : Type := mk {
  order : text;
  tracking : text;
  net_payout : float;
  country : text
}.
End UnmatchedOrder.

Module MultiTracking.
Record entry : Type := mk {
  order : string;
  count : nat;
  trackings : list text;
  net_payout : float
}.
End MultiTracking.

Module CountryMismatch.
Record entry : Type := mk {
  order : text;
  tracking : text;
  shopify_country : text;
  shipping_country : text
}.
End CountryMismatch.

Record issues : Type := mkIssues {
  unmatched_shipments : list UnmatchedShipment.entry;
  unmatched_orders : list UnmatchedOrder.entry;
  multi_tracking : list MultiTracking.entry;
  country_mismatch : list CountryMismatch.entry
}.

(** Identify all issues for the Issues tab. *)
Definition identify_issues (merged_df : DataFrame Merged.row)
    (shopify_df : DataFrame Shopify.row) : result issues :=
  (* Unmatched shipments (in shipping file but not in Shopify) *)
  ind ← pd.getitem merged_df "_merge" Merged._merge;
  let unmatched_ship :=
    pd.loc merged_df ((λ m, bool_decide (m = right_only)) <$> ind) in
  unmatched_shipments ← for_each (λ row,
      tracking ← pd.row_getitem unmatched_ship row "tracking_number" Merged.tracking_number;
      shipping_cost ← pd.row_getitem unmatched_ship row "shipping_cost_usd" Merged.shipping_cost_usd;
      ship_date ← pd.row_getitem unmatched_ship row "ship_date" Merged.ship_date;
      country ← pd.row_getitem unmatched_ship row "country_from_shipping" Merged.country_from_shipping;
      Ok (UnmatchedShipment.mk tracking shipping_cost ship_date country))
    (rows unmatched_ship);
  (* Unmatched orders (4PX tracking in Shopify but no shipping cost) *)
  ind ← pd.getitem merged_df "_merge" Merged._merge;
  tn ← pd.getitem merged_df "tracking_number" Merged.tracking_number;
  let unmatched_orders_df :=
    pd.loc merged_df
      (zip_with andb ((λ m, bool_decide (m = left_only)) <$> ind)
                     (pd.str_contains_na_false "4PX" <$> tn)) in
  unmatched_orders ← for_each (λ row,
      order ← pd.row_getitem unmatched_orders_df row "order_number" Merged.order_number;
      tracking ← pd.row_getitem unmatched_orders_df row "tracking_number" Merged.tracking_number;
      net_payout ← pd.row_getitem unmatched_orders_df row "net_payout" Merged.net_payout;
      country ← pd.row_getitem unmatched_orders_df row "country" Merged.country;
      Ok (UnmatchedOrder.mk order tracking net_payout country))
    (rows unmatched_orders_df);
  (* Check for multi-tracking (same order number appears multiple times) *)
  order_numbers ← pd.getitem shopify_df "order_number" Shopify.order_number;
  let order_counts := pd.value_counts order_numbers in
  let multi_orders := filter (λ oc, 1 < oc.2)%nat order_counts in
  multi_tracking ← for_each (λ '(order_num, count),
      order_numbers ← pd.getitem shopify_df "order_number" Shopify.order_number;
      let order_rows :=
        pd.loc shopify_df ((λ o, bool_decide (o = Some order_num)) <$> order_numbers) in
      trackings ← pd.getitem order_rows "tracking_number" Shopify.tracking_number;
      payouts ← pd.getitem order_rows "net_payout" Shopify.net_payout;
      net_payout ← pd.iloc0 payouts;
      Ok (MultiTracking.mk order_num count trackings net_payout))
    multi_orders;
  (* Country mismatch between shipping file and Shopify *)
  ind ← pd.getitem merged_df "_merge" Merged._merge;
  let matched := pd.loc merged_df ((λ m, bool_decide (m = both)) <$> ind) in
  c1 ← pd.getitem matched "country" Merged.country;
  c2 ← pd.getitem matched "country_from_shipping" Merged.country_from_shipping;
  let mismatches := pd.loc matched (zip_with pd.ne c1 c2) in
  country_mismatch ← for_each (λ row,
      c ← pd.row_getitem mismatches row "country" Merged.country;
      if text_notna c then
        c' ← pd.row_getitem mismatches row "country_from_shipping" Merged.country_from_shipping;
        if text_notna c' then
          order ← pd.row_getitem mismatches row "order_number" Merged.order_number;
          tracking ← pd.row_getitem mismatches row "tracking_number" Merged.tracking_number;
          shopify_country ← pd.row_getitem mismatches row "country" Merged.country;
          shipping_country ← pd.row_getitem mismatches row "country_from_shipping" Merged.country_from_shipping;
          Ok [CountryMismatch.mk order tracking shopify_country shipping_country]
        else Ok []
      else Ok [])
    (rows mismatches);
  Ok (mkIssues unmatched_shipments unmatched_orders multi_tracking (concat country_mismatch)).

(** One run of the application on a pair of uploaded files: the two calls
    inside the [try] block of [main]. *)
Definition run (shipping_df : DataFrame Shipping.row) (shopify_df : DataFrame Shopify.row)
    : result (DataFrame Merged.row * issues) :=
  '(merged_df, shipping_processed, shopify_processed) ← process_data shipping_df shopify_df;
  issues ← identify_issues merged_df shopify_processed;
  Ok (merged_df, issues).

(** ** Sample inputs *)

Definition shipping_header : list string :=
  ["物流单号"; "收货时间"; "总金额"; "国家/计费分区"; "计费重"; "客户单号"].

Definition shopify_header : list string :=
  ["Order"; "Order created at date"; "Tracking number"; "Net payout";
   "Shipping country"; "Cost"].

(** A ledger line as it is read from the sheet: the two derived slots are
    not columns of the sheet. *)
Definition ledger_line (tracking : text) (rmb : float) (label : text) : Shipping.row :=
  Shipping.mk tracking (Some "2024-01-05") rmb label (Fin (1 # 2)) None NaN None.

Definition order_line (order tracking : text) (payout cost : float) (country : text)
    : Shopify.row :=
  Shopify.mk order (Some "2024-01-02") tracking payout country cost.

Definition sample_shipping : DataFrame Shipping.row :=
  mkDataFrame shipping_header
    [ledger_line (Some "T1") (Fin 100) (Some "美国");
     ledger_line (Some "S9") (Fin 20) (Some "火星")].

Definition sample_shopify : DataFrame Shopify.row :=
  mkDataFrame shopify_header
    [order_line (Some "O1") (Some "T1") (Fin 50) (Fin 10) (Some "United States");
     order_line (Some "O2") (Some "4PX12345") (Fin 30) (Fin 5) (Some "Canada");
     order_line (Some "O2") (Some "DHL999") (Fin 30) (Fin 5) (Some "Canada")].

(** ** Row-level reading of [process_data]

    What the column assignments of [process_data] do to a single row. *)

(** The two columns added to a ledger line. *)
Definition normalise (r : Shipping.row) : Shipping.row :=
  let r := Shipping.set_shipping_cost_usd r (fmul (Shipping.shipping_cost_rmb r) RMB_TO_USD) in
  Shipping.set_country_from_shipping r (translate_country (Shipping.country_chinese r)).

(** The two derived metrics of a joined line. *)
Definition derive (r : Merged.row) : Merged.row :=
  let r :=
    Merged.set_shipping_pct r
      (fround2 (fmul (fdiv (Merged.shipping_cost_usd r) (Merged.net_payout r)) (Fin 100))) in
  Merged.set_profit r
    (fsub (fsub (Merged.net_payout r) (Merged.product_cost r)) (Merged.shipping_cost_usd r)).

(** The rows of the outer join of the order lines with the ledger lines. *)
Definition joined_rows (ls : list Shopify.row) (rs : list Shipping.row) : list Merged.row :=
  (λ p, pd.merge_row (p.1 ≫= (ls !!.)) (p.2 ≫= (rs !!.)))
    <$> pd.full_outer_join (Shopify.tracking_number <$> ls) (Shipping.tracking_number <$> rs).

(** The six ledger columns handed to the join. *)
Definition ledger_selection : list string :=
  ["tracking_number"; "shipping_cost_usd"; "shipping_cost_rmb"; "weight_kg";
   "ship_date"; "country_from_shipping"].

(** The labels of the frames [process_data] returns. *)
Definition shipping_labels (shipping_df : DataFrame Shipping.row) : list string :=
  pd.add_label "country_from_shipping"
    (pd.add_label "shipping_cost_usd" (columns (pd.rename shipping_renames shipping_df))).

Definition merged_labels (shopify_df : DataFrame Shopify.row) : list string :=
  pd.add_label "profit"
    (pd.add_label "shipping_pct"
       (pd.merged_columns (columns (pd.rename shopify_renames shopify_df))
          ledger_selection "tracking_number")).

(** The labels [process_data] reads from the renamed ledger and from the
    renamed order export, and the labels the export must not carry for the
    join to keep its own column names. *)
Definition ledger_needed : list string :=
  ["shipping_cost_rmb"; "country_chinese"; "tracking_number"; "weight_kg"; "ship_date"].

Definition export_needed : list string :=
  ["tracking_number"; "net_payout"; "product_cost"].

Definition reserved : list string :=
  ["_left_indicator"; "_right_indicator"; "_merge"; "shipping_cost_usd"].

Definition reserved_free (shopify_df : DataFrame Shopify.row) : Prop :=
  Forall (λ c, c ∉ columns (pd.rename shopify_renames shopify_df)) reserved.

Definition columns_ok (shipping_df : DataFrame Shipping.row)
    (shopify_df : DataFrame Shopify.row) : Prop :=
  Forall (λ c, c ∈ columns (pd.rename shipping_renames shipping_df)) ledger_needed
  ∧ Forall (λ c, c ∈ columns (pd.rename shopify_renames shopify_df)) export_needed
  ∧ reserved_free shopify_df.

#[global] Instance reserved_free_dec o : Decision (reserved_free o).
Proof. unfold reserved_free. apply _. Defined.

#[global] Instance columns_ok_dec s o : Decision (columns_ok s o).
Proof. unfold columns_ok, reserved_free. apply _. Defined.

(** The labels named by a [KeyError] of [process_data] are labels it needs
    and does not find. *)
Definition unresolved (shipping_df : DataFrame Shipping.row)
    (shopify_df : DataFrame Shopify.row) (c : string) : Prop :=
  (c ∈ ledger_needed ∧ c ∉ columns (pd.rename shipping_renames shipping_df))
  ∨ (c ∈ export_needed ∧ c ∉ columns (pd.rename shopify_renames shopify_df)).

(** The number of lines of a key column that carry the key [k]. *)
Definition occurrences (k : text) (keys : list text) : nat :=
  length (filter (λ x, x = k) keys).

(** The joined line built from a pair of row indices of the order export
    [ls] and of the ledger [rs], with its derived metrics. *)
Definition joined_row (ls : list Shopify.row) (rs : list Shipping.row)
    (p : option nat * option nat) : Merged.row :=
  derive (pd.merge_row (p.1 ≫= (ls !!.)) (p.2 ≫= (rs !!.))).

(** The key columns of the two processed frames and of the merged frame. *)
Definition order_keys (shopify_df : DataFrame Shopify.row) : list text :=
  Shopify.tracking_number <$> rows shopify_df.

Definition shipment_keys (shipping_df : DataFrame Shipping.row) : list text :=
  Shipping.tracking_number <$> rows shipping_df.

Definition joined_keys (merged_df : DataFrame Merged.row) : list text :=
  Merged.tracking_number <$> rows merged_df.

(** A payout or cost that is the number zero. *)
Definition is_zero (a : float) : bool :=
  match a with
  | Fin q => Z.eqb (Qsign q) 0
  | _ => false
  end.

(** A ledger and an export in which keys repeat on both sides. *)
Definition repeated_shipping : DataFrame Shipping.row :=
  mkDataFrame shipping_header
    [ledger_line (Some "T1") (Fin 100) (Some "美国");
     ledger_line (Some "T2") (Fin 40) (Some "英国");
     ledger_line (Some "T1") (Fin 60) (Some "美国");
     ledger_line (Some "T1") (Fin 80) (Some "加拿大")].

Definition repeated_shopify : DataFrame Shopify.row :=
  mkDataFrame shopify_header
    [order_line (Some "O1") (Some "T1") (Fin 50) (Fin 10) (Some "United States");
     order_line (Some "O2") None (Fin 30) (Fin 5) (Some "Canada");
     order_line (Some "O3") (Some "T1") (Fin 20) (Fin 4) (Some "United States")].

(** A ledger line and an order line that both lack a tracking number. *)
Definition keyless_shipping : DataFrame Shipping.row :=
  mkDataFrame shipping_header [ledger_line None (Fin 100) (Some "美国")].

Definition keyless_shopify : DataFrame Shopify.row :=
  mkDataFrame shopify_header
    [order_line (Some "O1") None (Fin 50) (Fin 10) (Some "United States")].

(** The reading of the null-key rule of the join: a joined line with a
    missing key is never a matched one, and every input line with a missing
    key gives exactly one joined line. *)
Definition null_keys_never_match (shipping_df : DataFrame Shipping.row)
    (shopify_df : DataFrame Shopify.row) : Prop :=
  ∀ merged_df shipping_df' shopify_df',
    process_data shipping_df shopify_df = Ok (merged_df, shipping_df', shopify_df') →
    (∀ r, r ∈ rows merged_df → Merged.tracking_number r = None → Merged._merge r ≠ both)
    ∧ occurrences None (joined_keys merged_df)
      = (occurrences None (shipment_keys shipping_df')
         + occurrences None (order_keys shopify_df'))%nat.

(** An order paid out at zero for a shipment that cost 100 RMB. *)
Definition zero_payout_shipping : DataFrame Shipping.row :=
  mkDataFrame shipping_header [ledger_line (Some "T1") (Fin 100) (Some "美国")].

Definition zero_payout_shopify : DataFrame Shopify.row :=
  mkDataFrame shopify_header
    [order_line (Some "O1") (Some "T1") (Fin 0) (Fin 10) (Some "United States")].

(** The reading of the zero-guard on the shipping percentage: it is missing
    on every joined line whose payout is missing or zero. *)
Definition pct_null_on_zero_payout (shipping_df : DataFrame Shipping.row)
    (shopify_df : DataFrame Shopify.row) : Prop :=
  ∀ merged_df shipping_df' shopify_df',
    process_data shipping_df shopify_df = Ok (merged_df, shipping_df', shopify_df') →
    ∀ r, r ∈ rows merged_df →
      Merged.net_payout r = NaN ∨ is_zero (Merged.net_payout r) = true →
      Merged.shipping_pct r = NaN.

(** Whether a number is one of the two infinities. *)
Definition is_inf (a : float) : bool :=
  match a with
  | PInf | NInf => true
  | _ => false
  end.

(** The order export in which the lines selected by [zero] are paid out at
    zero. *)
Definition zero_payouts (zero : Shopify.row → bool) (shopify_df : DataFrame Shopify.row)
    : DataFrame Shopify.row :=
  mkDataFrame (columns shopify_df)
    ((λ x, if zero x
           then Shopify.mk (Shopify.order_number x) (Shopify.order_date x)
                  (Shopify.tracking_number x) (Fin 0) (Shopify.country x)
                  (Shopify.product_cost x)
           else x) <$> rows shopify_df).

(** The ledger of the sample without its weight column. *)
Definition weightless_shipping : DataFrame Shipping.row :=
  mkDataFrame ["物流单号"; "收货时间"; "总金额"; "国家/计费分区"; "客户单号"]
    (rows sample_shipping).




(** ** Row-level reading of [identify_issues] *)

(** The entries the four loops of [identify_issues] append. *)
Definition shipment_entry (r : Merged.row) : UnmatchedShipment.entry :=
  UnmatchedShipment.mk (Merged.tracking_number r) (Merged.shipping_cost_usd r)
    (Merged.ship_date r) (Merged.country_from_shipping r).

Definition order_entry (r : Merged.row) : UnmatchedOrder.entry :=
  UnmatchedOrder.mk (Merged.order_number r) (Merged.tracking_number r)
    (Merged.net_payout r) (Merged.country r).

Definition mismatch_entry (r : Merged.row) : CountryMismatch.entry :=
  CountryMismatch.mk (Merged.order_number r) (Merged.tracking_number r)
    (Merged.country r) (Merged.country_from_shipping r).

(** The lines of the order export that carry the order number [order_num]. *)
Definition order_rows (os : list Shopify.row) (order_num : string) : list Shopify.row :=
  filter (λ r, Shopify.order_number r = Some order_num) os.

Definition multi_entry (os : list Shopify.row) (oc : string * nat) : MultiTracking.entry :=
  MultiTracking.mk oc.1 oc.2
    (Shopify.tracking_number <$> order_rows os oc.1)
    (from_option Shopify.net_payout NaN (head (order_rows os oc.1))).

(** The three row filters of the issue report. *)
Definition is_unmatched_shipment (r : Merged.row) : Prop :=
  Merged._merge r = right_only.

Definition is_unmatched_order (r : Merged.row) : Prop :=
  Merged._merge r = left_only
  ∧ ∃ s, Merged.tracking_number r = Some s ∧ str_contains "4PX" s = true.

Definition is_country_mismatch (r : Merged.row) : Prop :=
  Merged._merge r = both
  ∧ ∃ c c', Merged.country r = Some c ∧ Merged.country_from_shipping r = Some c' ∧ c ≠ c'.

#[global] Instance is_unmatched_shipment_dec r : Decision (is_unmatched_shipment r).
Proof. unfold is_unmatched_shipment. apply _. Defined.

#[global] Instance is_unmatched_order_dec r : Decision (is_unmatched_order r).
Proof.
  unfold is_unmatched_order.
  destruct (Merged.tracking_number r) as [s|].
  - destruct (decide (Merged._merge r = left_only ∧ str_contains "4PX" s = true)) as [H|H].
    + left. destruct H. eauto.
    + right. intros (? & s' & [= <-] & ?). auto.
  - right. intros (_ & s & [=] & _).
Defined.

#[global] Instance is_country_mismatch_dec r : Decision (is_country_mismatch r).
Proof.
  unfold is_country_mismatch.
  destruct (Merged.country r) as [c|]; [|right; intros (_ & ? & ? & [=] & _)].
  destruct (Merged.country_from_shipping r) as [c'|];
    [|right; intros (_ & ? & ? & _ & [=] & _)].
  destruct (decide (Merged._merge r = both ∧ c ≠ c')) as [H|H].
  - left. destruct H. eauto 6.
  - right. intros (? & ? & ? & [= <-] & [= <-] & ?). auto.
Defined.

(** The labels [identify_issues] reads from the merged frame. *)
Definition merged_needed : list string :=
  ["_merge"; "tracking_number"; "shipping_cost_usd"; "ship_date";
   "country_from_shipping"; "order_number"; "net_payout"; "country"].

(** The labels [identify_issues] must find to return: the four it reads from
    the merged frame whatever the lines, the order number of the order
    frame, and the labels each loop reads once it has a line to read. *)
Definition issue_labels_ok (merged_df : DataFrame Merged.row)
    (shopify_df : DataFrame Shopify.row) : Prop :=
  Forall (λ c, c ∈ columns merged_df)
    ["_merge"; "tracking_number"; "country"; "country_from_shipping"]
  ∧ "order_number" ∈ columns shopify_df
  ∧ (∀ r, r ∈ rows merged_df → is_unmatched_shipment r →
       Forall (λ c, c ∈ columns merged_df) ["shipping_cost_usd"; "ship_date"])
  ∧ (∀ r, r ∈ rows merged_df → is_unmatched_order r →
       Forall (λ c, c ∈ columns merged_df) ["order_number"; "net_payout"])
  ∧ (∀ v : string,
       (2 ≤ occurrences (Some v) (Shopify.order_number <$> rows shopify_df))%nat →
       Forall (λ c, c ∈ columns shopify_df) ["tracking_number"; "net_payout"])
  ∧ (∀ r, r ∈ rows merged_df → is_country_mismatch r → "order_number" ∈ columns merged_df).

(** The report of the four row filters. *)
Definition report_of (merged_df : DataFrame Merged.row) (shopify_df : DataFrame Shopify.row)
    : issues :=
  mkIssues
    (shipment_entry <$> filter is_unmatched_shipment (rows merged_df))
    (order_entry <$> filter is_unmatched_order (rows merged_df))
    (multi_entry (rows shopify_df)
       <$> filter (λ oc, 1 < oc.2)
             (pd.value_counts (Shopify.order_number <$> rows shopify_df)))
    (mismatch_entry <$> filter is_country_mismatch (rows merged_df)).

(** The frames [process_data] hands to [identify_issues] on the sample. *)
Definition sample_merged : DataFrame Merged.row :=
  Eval vm_compute in
    match process_data sample_shipping sample_shopify with
    | Ok (merged_df, _, _) => merged_df
    | Raise _ => mkDataFrame [] []
    end.

Definition sample_orders : DataFrame Shopify.row :=
  Eval vm_compute in
    match process_data sample_shipping sample_shopify with
    | Ok (_, _, shopify_df) => shopify_df
    | Raise _ => mkDataFrame [] []
    end.

(** An order whose two lines left in one parcel. *)
Definition parcel_shipping : DataFrame Shipping.row :=
  mkDataFrame shipping_header [ledger_line (Some "T2") (Fin 100) (Some "美国")].

Definition parcel_shopify : DataFrame Shopify.row :=
  mkDataFrame shopify_header
    [order_line (Some "O2") (Some "T2") (Fin 50) (Fin 10) (Some "United States");
     order_line (Some "O2") (Some "T2") (Fin 25) (Fin 5) (Some "United States")].

(** The reading of the multi-tracking report in which the tracking list of
    an entry holds each tracking key once. *)
Definition trackings_are_distinct (shipping_df : DataFrame Shipping.row)
    (shopify_df : DataFrame Shopify.row) : Prop :=
  ∀ merged_df report,
    run shipping_df shopify_df = Ok (merged_df, report) →
    ∀ e, e ∈ multi_tracking report → NoDup (MultiTracking.trackings e).

(** The processed ledger of the sample. *)
Definition sample_ledger : DataFrame Shipping.row :=
  Eval vm_compute in
    match process_data sample_shipping sample_shopify with
    | Ok (_, shipping_df, _) => shipping_df
    | Raise _ => mkDataFrame [] []
    end.

(** A joined line without its order-side country, its ledger-side country,
    or both, and the merged frame in which [sel] says which lines lose
    which. *)
Definition blank (order_side ledger_side : bool) (r : Merged.row) : Merged.row :=
  Merged.mk (Merged.order_number r) (Merged.order_date r) (Merged.tracking_number r)
    (Merged.net_payout r) (if order_side then None else Merged.country r)
    (Merged.product_cost r) (Merged.shipping_cost_usd r) (Merged.shipping_cost_rmb r)
    (Merged.weight_kg r) (Merged.ship_date r)
    (if ledger_side then None else Merged.country_from_shipping r)
    (Merged._merge r) (Merged.shipping_pct r) (Merged.profit r).

Definition without_countries (sel : Merged.row → bool * bool)
    (merged_df : DataFrame Merged.row) : DataFrame Merged.row :=
  mkDataFrame (columns merged_df) ((λ r, blank (sel r).1 (sel r).2 r) <$> rows merged_df).

(** A ledger and an export whose four pairs are matched: the countries of
    the first differ, the second has no country on the order, the third no
    country label in the ledger, the fourth the same country twice. *)
Definition mismatch_shipping : DataFrame Shipping.row :=
  mkDataFrame shipping_header
    [ledger_line (Some "T1") (Fin 100) (Some "美国");
     ledger_line (Some "T2") (Fin 40) (Some "英国");
     ledger_line (Some "T3") (Fin 60) None;
     ledger_line (Some "T4") (Fin 80) (Some "加拿大")].

Definition mismatch_shopify : DataFrame Shopify.row :=
  mkDataFrame shopify_header
    [order_line (Some "O1") (Some "T1") (Fin 50) (Fin 10) (Some "Canada");
     order_line (Some "O2") (Some "T2") (Fin 30) (Fin 5) None;
     order_line (Some "O3") (Some "T3") (Fin 20) (Fin 4) (Some "France");
     order_line (Some "O4") (Some "T4") (Fin 40) (Fin 8) (Some "Canada")].

Definition mismatch_merged : DataFrame Merged.row :=
  Eval vm_compute in
    match process_data mismatch_shipping mismatch_shopify with
    | Ok (merged_df, _, _) => merged_df
    | Raise _ => mkDataFrame [] []
    end.

Definition mismatch_orders : DataFrame Shopify.row :=
  Eval vm_compute in
    match process_data mismatch_shipping mismatch_shopify with
    | Ok (_, _, shopify_df) => shopify_df
    | Raise _ => mkDataFrame [] []
    end.

(** ** The pure computations of [main] *)

(** Count issues: the four lengths added up for the title of the Issues tab. *)
Definition total_issues (report : issues) : nat :=
  length (unmatched_shipments report)
  + length (unmatched_orders report)
  + length (multi_tracking report)
  + length (country_mismatch report).

(** Get matched data for analytics. *)
Definition matched_data (merged_df : DataFrame Merged.row)
    : result (DataFrame Merged.row) :=
  ind ← pd.getitem merged_df "_merge" Merged._merge;
  Ok (pd.loc merged_df ((λ m, bool_decide (m = both)) <$> ind)).

(** The joined line of an order line that has no ledger line, and of a
    ledger line that has no order line. *)
Definition orphan_order (x : Shopify.row) : Merged.row :=
  derive (pd.merge_row (Some x) None).

Definition orphan_shipment (y : Shipping.row) : Merged.row :=
  derive (pd.merge_row None (Some y)).

(** The line at position [j] of [l] satisfies [P]. *)
Definition at_index {A} (P : A → Prop) (l : list A) (j : nat) : Prop :=
  ∃ x, l !! j = Some x ∧ P x.

#[global] Instance at_index_dec {A} (P : A → Prop) `{∀ x, Decision (P x)}
    (l : list A) (j : nat) : Decision (at_index P l j).
Proof.
  unfold at_index. destruct (l !! j) as [x|].
  - destruct (decide (P x)); [left; eauto|right]. by intros (? & [= <-] & ?).
  - right. by intros (? & [=] & _).
Defined.

(** The report entries of a processed ledger line and of an order line. *)
Definition ledger_entry (y : Shipping.row) : UnmatchedShipment.entry :=
  UnmatchedShipment.mk (Shipping.tracking_number y) (Shipping.shipping_cost_usd y)
    (Shipping.ship_date y) (Shipping.country_from_shipping y).

Definition order_line_entry (x : Shopify.row) : UnmatchedOrder.entry :=
  UnmatchedOrder.mk (Shopify.order_number x) (Shopify.tracking_number x)
    (Shopify.net_payout x) (Shopify.country x).

(** An order line handed to the 4PX carrier, by its tracking key. *)
Definition has_4PX_key (x : Shopify.row) : Prop :=
  pd.str_contains_na_false "4PX" (Shopify.tracking_number x) = true.

(** * Properties *)

(** The dictionaries are looked up by evaluation only. *)
#[global] Opaque COUNTRY_MAP shipping_renames shopify_renames.

(** ** Lists and frames *)

(** Membership of a literal label in a literal list, and its negation. *)
Ltac label_in := apply (bool_decide_unpack (_ ∈ _)); vm_compute; exact I.
Ltac label_notin := apply (bool_decide_unpack (_ ∉ _)); vm_compute; exact I.

(** A label that is neither in the columns of a frame, by a hypothesis, nor
    in a literal list is not in their concatenation. *)
Ltac label_notin_app :=
  let H := fresh in
  rewrite elem_of_app; intros [?|H]; [done|]; revert H; label_notin.

Lemma zip_with_fmap_same {A B C D : Type} (f : B → C → D) (g : A → B) (h : A → C)
    (l : list A) :
  zip_with f (g <$> l) (h <$> l) = (λ x, f (g x) (h x)) <$> l.
Proof. induction l as [|x l IH]; csimpl; [done|]. by f_equal. Qed.

Lemma zip_with_fmap_r_same {A B : Type} (f : A → B → A) (g : A → B) (l : list A) :
  zip_with f l (g <$> l) = (λ x, f x (g x)) <$> l.
Proof. induction l as [|x l IH]; csimpl; [done|]. by f_equal. Qed.

Lemma loc_rows_fmap {A : Type} (df : DataFrame A) (f : A → bool) :
  rows (pd.loc df (f <$> rows df)) = filter (λ r, f r = true) (rows df).
Proof.
  unfold pd.loc; simpl. induction (rows df) as [|x l IH]; csimpl; [done|].
  rewrite !filter_cons; simpl. destruct (f x) eqn:E.
  - rewrite !decide_True by done. csimpl. by f_equal.
  - rewrite !decide_False by done. done.
Qed.

Lemma getitem_Ok {A V} (df : DataFrame A) c (get : A → V) :
  c ∈ columns df → pd.getitem df c get = Ok (get <$> rows df).
Proof. intros H. unfold pd.getitem. by rewrite decide_True. Qed.

Lemma getitem_Raise {A V} (df : DataFrame A) c (get : A → V) :
  c ∉ columns df → pd.getitem df c get = Raise (KeyError [c]).
Proof. intros H. unfold pd.getitem. by rewrite decide_False. Qed.

Lemma getitem_inv {A V} (df : DataFrame A) c (get : A → V) vs :
  pd.getitem df c get = Ok vs → c ∈ columns df ∧ vs = get <$> rows df.
Proof. unfold pd.getitem. case_decide; naive_solver. Qed.

Lemma elem_of_add_label c c' cols :
  c' ∈ pd.add_label c cols ↔ c' = c ∨ c' ∈ cols.
Proof.
  unfold pd.add_label. case_decide; [|rewrite elem_of_app, list_elem_of_singleton];
    naive_solver.
Qed.

Lemma select_Ok {A} (df : DataFrame A) cs :
  Forall (λ c, c ∈ columns df) cs → pd.select df cs = Ok (mkDataFrame cs (rows df)).
Proof.
  intros H. unfold pd.select.
  replace (filter (λ c, c ∉ columns df) cs) with (@nil string); [done|].
  symmetry. induction H as [|c cs Hc _ IH]; [done|].
  rewrite filter_cons, decide_False by naive_solver. done.
Qed.

Lemma select_Raise {A} (df : DataFrame A) cs c :
  c ∈ cs → c ∉ columns df →
  ∃ missing, pd.select df cs = Raise (KeyError missing) ∧ c ∈ missing
    ∧ Forall (λ c', c' ∈ cs ∧ c' ∉ columns df) missing.
Proof.
  intros Hc Hn. unfold pd.select.
  assert (Hin : c ∈ filter (λ c, c ∉ columns df) cs) by (apply list_elem_of_filter; done).
  assert (Hall : Forall (λ c', c' ∈ cs ∧ c' ∉ columns df) (filter (λ c, c ∉ columns df) cs)).
  { apply Forall_forall. intros x Hx. apply list_elem_of_filter in Hx. naive_solver. }
  destruct (filter (λ c, c ∉ columns df) cs) as [|m ms] eqn:E.
  - by apply elem_of_nil in Hin.
  - eauto.
Qed.

Lemma select_inv {A} (df df' : DataFrame A) cs :
  pd.select df cs = Ok df' →
  Forall (λ c, c ∈ columns df) cs ∧ df' = mkDataFrame cs (rows df).
Proof.
  unfold pd.select. intros H.
  destruct (filter (λ c, c ∉ columns df) cs) as [|m ms] eqn:E; [|done].
  split; [|congruence].
  apply Forall_forall. intros c Hc.
  destruct (decide (c ∈ columns df)) as [|Hn]; [done|].
  assert (c ∈ filter (λ c, c ∉ columns df) cs) as Hin by (apply list_elem_of_filter; done).
  rewrite E in Hin. by apply elem_of_nil in Hin.
Qed.

Lemma elem_of_merged_columns L lcols rcols key :
  L ∈ pd.merged_columns lcols rcols key ↔
    (∃ c, c ∈ lcols ∧ L = if decide (c ∈ filter (λ c, c ≠ key) rcols) then c +:+ "_x" else c)
    ∨ (∃ c, c ∈ filter (λ c, c ≠ key) rcols ∧ L = if decide (c ∈ lcols) then c +:+ "_y" else c)
    ∨ L = "_merge".
Proof.
  unfold pd.merged_columns. rewrite !elem_of_app, !list_elem_of_fmap, list_elem_of_singleton.
  split; intros [(c & ? & ?)|[(c & ? & ?)|?]]; eauto 6.
Qed.

Lemma ledger_selection_nokey :
  filter (λ c, c ≠ "tracking_number") ledger_selection =
  ["shipping_cost_usd"; "shipping_cost_rmb"; "weight_kg"; "ship_date"; "country_from_shipping"].
Proof. reflexivity. Qed.

Lemma left_label_merged L oc :
  L ∈ ["order_number"; "tracking_number"; "net_payout"; "country"; "product_cost"] →
  L ∈ pd.merged_columns oc ledger_selection "tracking_number" ↔ L ∈ oc.
Proof.
  intros HL. rewrite elem_of_merged_columns, ledger_selection_nokey.
  split.
  - intros [(c & Hc & ->)|[(c & Hc & ->)| ->]].
    + case_decide as Hd; [|done].
      exfalso. revert HL.
      repeat (apply elem_of_cons in Hd as [->|Hd]; [label_notin|]).
      by apply elem_of_nil in Hd.
    + exfalso. revert HL.
      repeat (apply elem_of_cons in Hc as [->|Hc]; [case_decide; label_notin|]).
      by apply elem_of_nil in Hc.
    + exfalso. revert HL. label_notin.
  - intros Hoc. left. exists L. split; [done|].
    rewrite decide_False; [done|].
    repeat (apply elem_of_cons in HL as [->|HL]; [label_notin|]).
    by apply elem_of_nil in HL.
Qed.

Lemma right_label_merged L oc :
  L ∈ ["shipping_cost_usd"; "shipping_cost_rmb"; "weight_kg"; "ship_date"; "country_from_shipping"] →
  L ∈ pd.merged_columns oc ledger_selection "tracking_number" ↔ L ∉ oc.
Proof.
  intros HL. rewrite elem_of_merged_columns, ledger_selection_nokey.
  split.
  - intros [(c & Hc & ->)|[(c & Hc & ->)| ->]].
    + case_decide as Hd.
      * exfalso. revert HL.
        repeat (apply elem_of_cons in Hd as [->|Hd]; [label_notin|]).
        by apply elem_of_nil in Hd.
      * done.
    + case_decide as Hd; [|done].
      exfalso. revert HL.
      repeat (apply elem_of_cons in Hc as [->|Hc]; [label_notin|]).
      by apply elem_of_nil in Hc.
    + exfalso. revert HL. label_notin.
  - intros Hoc. right. left. exists L. split; [done|].
    by rewrite decide_False.
Qed.

Lemma columns_setitem {A V} (df : DataFrame A) c (set : A → V → A) vs :
  columns (pd.setitem df c set vs) = pd.add_label c (columns df).
Proof. reflexivity. Qed.

Lemma rows_setitem {A V} (df : DataFrame A) c (set : A → V → A) vs :
  rows (pd.setitem df c set vs) = zip_with set (rows df) vs.
Proof. reflexivity. Qed.

Lemma rows_normalised (df : DataFrame Shipping.row) :
  let df1 :=
    pd.setitem df "shipping_cost_usd" Shipping.set_shipping_cost_usd
      ((λ x, fmul x RMB_TO_USD) <$> (Shipping.shipping_cost_rmb <$> rows df)) in
  rows (pd.setitem df1 "country_from_shipping" Shipping.set_country_from_shipping
          (translate_country <$> (Shipping.country_chinese <$> rows df1)))
  = normalise <$> rows df.
Proof.
  cbn zeta. rewrite !rows_setitem, <- !list_fmap_compose.
  rewrite (zip_with_fmap_r_same Shipping.set_shipping_cost_usd).
  rewrite (zip_with_fmap_r_same Shipping.set_country_from_shipping).
  rewrite <- list_fmap_compose. done.
Qed.

Lemma rows_derived (df : DataFrame Merged.row) :
  let df1 :=
    pd.setitem df "shipping_pct" Merged.set_shipping_pct
      (fround2 <$> ((λ x, fmul x (Fin 100)) <$>
         zip_with fdiv (Merged.shipping_cost_usd <$> rows df) (Merged.net_payout <$> rows df))) in
  rows (pd.setitem df1 "profit" Merged.set_profit
          (zip_with fsub
             (zip_with fsub (Merged.net_payout <$> rows df1) (Merged.product_cost <$> rows df1))
             (Merged.shipping_cost_usd <$> rows df1)))
  = derive <$> rows df.
Proof.
  cbn zeta. rewrite !rows_setitem.
  rewrite (zip_with_fmap_same fdiv), <- !list_fmap_compose.
  rewrite (zip_with_fmap_r_same Merged.set_shipping_pct).
  rewrite (zip_with_fmap_same fsub), (zip_with_fmap_same fsub).
  rewrite (zip_with_fmap_r_same Merged.set_profit).
  rewrite <- list_fmap_compose. done.
Qed.

Lemma merge_Ok left right :
  "tracking_number" ∈ columns right →
  "tracking_number" ∈ columns left →
  Forall (λ c, c ∉ columns left ++ columns right)
    ["_left_indicator"; "_right_indicator"; "_merge"] →
  pd.merge left right =
    Ok (mkDataFrame (pd.merged_columns (columns left) (columns right) "tracking_number")
          (joined_rows (rows left) (rows right))).
Proof.
  intros Hr Hl Hn. rewrite !Forall_cons in Hn. destruct Hn as (H1 & H2 & H3 & _).
  unfold pd.merge. rewrite (getitem_Ok right), (getitem_Ok left) by done.
  cbn [mbind result_bind].
  rewrite !decide_False by done. done.
Qed.

Lemma process_data_Ok s o :
  columns_ok s o →
  process_data s o =
    Ok (mkDataFrame (merged_labels o)
          (derive <$> joined_rows (rows o) (normalise <$> rows s)),
        mkDataFrame (shipping_labels s) (normalise <$> rows s),
        pd.rename shopify_renames o).
Proof.
  intros (Hs & Ho & Hn). unfold process_data.
  unfold reserved_free, reserved in Hn. unfold ledger_needed in Hs. unfold export_needed in Ho.
  rewrite !Forall_cons in Hs. rewrite !Forall_cons in Ho. rewrite !Forall_cons in Hn.
  destruct Hs as (Hs1 & Hs2 & Hs3 & Hs4 & Hs5 & _).
  destruct Ho as (Ho1 & Ho2 & Ho3 & _).
  destruct Hn as (Hn1 & Hn2 & Hn3 & Hn4 & _).
  rewrite getitem_Ok by done. cbn [mbind result_bind].
  rewrite getitem_Ok by (rewrite columns_setitem, elem_of_add_label; auto).
  cbn [mbind result_bind].
  rewrite select_Ok.
  2:{ rewrite !columns_setitem. repeat constructor; rewrite !elem_of_add_label; auto. }
  cbn [mbind result_bind].
  rewrite merge_Ok; cbn [columns rows]; [|label_in|done|].
  2:{ repeat (apply Forall_cons; split; [label_notin_app|]). constructor. }
  rewrite (rows_normalised (pd.rename shipping_renames s)).
  cbn [mbind result_bind].
  set (mc := pd.merged_columns _ _ _).
  assert (Hm1 : "shipping_cost_usd" ∈ mc) by (apply right_label_merged; [label_in|done]).
  assert (Hm2 : "net_payout" ∈ mc) by (apply left_label_merged; [label_in|done]).
  assert (Hm3 : "product_cost" ∈ mc) by (apply left_label_merged; [label_in|done]).
  set (df := mkDataFrame mc _).
  rewrite (getitem_Ok df "shipping_cost_usd"), (getitem_Ok df "net_payout") by done.
  cbn [mbind result_bind].
  rewrite !getitem_Ok by (rewrite columns_setitem, elem_of_add_label; auto).
  cbn [mbind result_bind].
  apply f_equal. apply (f_equal2 pair); [apply (f_equal2 pair)|reflexivity].
  - etrans; [|apply (f_equal (mkDataFrame _)), (rows_derived df)]. reflexivity.
  - etrans; [|apply (f_equal (mkDataFrame _)),
                (rows_normalised (pd.rename shipping_renames s))].
    reflexivity.
Qed.

Lemma merge_Raise_key left right :
  "tracking_number" ∈ columns right →
  "tracking_number" ∉ columns left →
  pd.merge left right = Raise (KeyError ["tracking_number"]).
Proof.
  intros Hr Hl. unfold pd.merge.
  rewrite (getitem_Ok right) by done. cbn [mbind result_bind].
  rewrite (getitem_Raise left) by done. done.
Qed.

Lemma merge_Raise_indicator left right :
  "tracking_number" ∈ columns right →
  "tracking_number" ∈ columns left →
  ¬ Forall (λ c, c ∉ columns left ++ columns right)
      ["_left_indicator"; "_right_indicator"; "_merge"] →
  ∃ msg, pd.merge left right = Raise (ValueError msg).
Proof.
  intros Hr Hl Hn. unfold pd.merge.
  rewrite (getitem_Ok right), (getitem_Ok left) by done. cbn [mbind result_bind].
  case_decide as H1; [eauto|]. case_decide as H2; [eauto|]. case_decide as H3; [eauto|].
  exfalso. apply Hn. repeat constructor; done.
Qed.

Lemma process_data_Raise s o :
  ¬ columns_ok s o →
  ∃ e, process_data s o = Raise e ∧
    (reserved_free o →
     ∃ missing, e = KeyError missing ∧ missing ≠ [] ∧ Forall (unresolved s o) missing).
Proof.
  intros Hnot. unfold process_data.
  set (sc := columns (pd.rename shipping_renames s)) in *.
  destruct (decide ("shipping_cost_rmb" ∈ sc)) as [Hs1|Hs1].
  2:{ rewrite getitem_Raise by done. eexists; split; [done|]. intros _.
      eexists; split; [done|]. split; [done|]. apply Forall_singleton. left.
      split; [label_in|done]. }
  rewrite getitem_Ok by done. cbn [mbind result_bind].
  destruct (decide ("country_chinese" ∈ sc)) as [Hs2|Hs2].
  2:{ rewrite getitem_Raise.
      2:{ rewrite columns_setitem, elem_of_add_label. intros [|]; done. }
      eexists; split; [done|]. intros _.
      eexists; split; [done|]. split; [done|]. apply Forall_singleton. left.
      split; [label_in|done]. }
  rewrite getitem_Ok by (rewrite columns_setitem, elem_of_add_label; auto).
  cbn [mbind result_bind].
  set (sf := pd.setitem _ _ _ _).
  change (pd.select sf _) with (pd.select sf ledger_selection).
  assert (Hsf : ∀ c, c ∈ ledger_selection → c ∉ columns sf → c ∈ ledger_needed ∧ c ∉ sc).
  { intros c Hc Hn. unfold sf in Hn. rewrite !columns_setitem, !elem_of_add_label in Hn.
    fold sc in Hn. split; [|tauto]. unfold ledger_selection in Hc.
    repeat (apply elem_of_cons in Hc as [->|Hc];
            [first [label_in | exfalso; apply Hn; auto]|]).
    by apply elem_of_nil in Hc. }
  destruct (decide (Forall (λ c, c ∈ columns sf) ledger_selection)) as [Hsel|Hsel].
  2:{ apply not_Forall_Exists in Hsel; [|apply _]. apply Exists_exists in Hsel as (c & Hc & Hn).
      destruct (select_Raise sf ledger_selection c Hc Hn) as (missing & -> & Hin & Hall).
      eexists; split; [done|]. intros _.
      exists missing. split; [done|]. split; [by intros ->; apply elem_of_nil in Hin|].
      eapply Forall_impl; [exact Hall|]. intros c' [? ?]. left. by apply Hsf. }
  rewrite select_Ok by done. cbn [mbind result_bind].
  set (oc := columns (pd.rename shopify_renames o)) in *.
  destruct (decide ("tracking_number" ∈ oc)) as [Ho1|Ho1].
  2:{ rewrite merge_Raise_key; [|label_in|done]. eexists; split; [done|]. intros _.
      eexists; split; [done|]. split; [done|]. apply Forall_singleton. right.
      split; [label_in|done]. }
  set (right := mkDataFrame ledger_selection _).
  destruct (decide (Forall (λ c, c ∉ oc ++ columns right)
              ["_left_indicator"; "_right_indicator"; "_merge"])) as [Hind|Hind].
  2:{ destruct (merge_Raise_indicator (pd.rename shopify_renames o) right)
        as (msg & ->); [label_in|done|done|].
      eexists; split; [done|]. intros Hfree. exfalso. apply Hind.
      unfold reserved_free, reserved in Hfree. fold oc in Hfree.
      rewrite !Forall_cons in Hfree. destruct Hfree as (H1 & H2 & H3 & _).
      repeat (apply Forall_cons; split; [label_notin_app|]). constructor. }
  rewrite merge_Ok; [|label_in|done|done]. cbn [mbind result_bind].
  set (mc := pd.merged_columns _ _ _).
  set (df := mkDataFrame mc _).
  assert (Hmc : mc = pd.merged_columns oc ledger_selection "tracking_number") by done.
  destruct (decide ("shipping_cost_usd" ∈ oc)) as [Hu|Hu].
  { rewrite (getitem_Raise df "shipping_cost_usd").
    2:{ cbn [df columns]. rewrite Hmc, right_label_merged; [tauto|label_in]. }
    eexists; split; [done|]. intros Hfree. exfalso.
    unfold reserved_free, reserved in Hfree. fold oc in Hfree.
    rewrite !Forall_cons in Hfree. tauto. }
  assert (Hm1 : "shipping_cost_usd" ∈ mc) by (rewrite Hmc; apply right_label_merged; [label_in|done]).
  rewrite (getitem_Ok df "shipping_cost_usd") by done. cbn [mbind result_bind].
  destruct (decide ("net_payout" ∈ oc)) as [Ho2|Ho2].
  2:{ rewrite (getitem_Raise df "net_payout").
      2:{ cbn [df columns]. rewrite Hmc, left_label_merged; [tauto|label_in]. }
      eexists; split; [done|]. intros _.
      eexists; split; [done|]. split; [done|]. apply Forall_singleton. right.
      split; [label_in|done]. }
  assert (Hm2 : "net_payout" ∈ mc) by (rewrite Hmc; apply left_label_merged; [label_in|done]).
  rewrite (getitem_Ok df "net_payout") by done. cbn [mbind result_bind].
  rewrite (getitem_Ok _ "net_payout") by (rewrite columns_setitem, elem_of_add_label; auto).
  cbn [mbind result_bind].
  destruct (decide ("product_cost" ∈ oc)) as [Ho3|Ho3].
  2:{ rewrite (getitem_Raise _ "product_cost").
      2:{ rewrite columns_setitem, elem_of_add_label. cbn [df columns].
          rewrite Hmc, left_label_merged; [|label_in]. intros [|]; done. }
      eexists; split; [done|]. intros _.
      eexists; split; [done|]. split; [done|]. apply Forall_singleton. right.
      split; [label_in|done]. }
  exfalso. apply Hnot. unfold columns_ok, reserved_free. fold sc oc.
  split; [|split].
  - unfold ledger_needed. unfold ledger_selection in Hsel.
    rewrite !Forall_cons in Hsel. destruct Hsel as (H1 & _ & _ & H4 & H5 & _).
    unfold sf in H1, H4, H5. rewrite !columns_setitem, !elem_of_add_label in H1, H4, H5.
    fold sc in H1, H4, H5.
    assert ("tracking_number" ∈ sc) by (destruct H1 as [|[|]]; done).
    assert ("weight_kg" ∈ sc) by (destruct H4 as [|[|]]; done).
    assert ("ship_date" ∈ sc) by (destruct H5 as [|[|]]; done).
    repeat constructor; done.
  - repeat constructor; done.
  - rewrite !Forall_cons in Hind. destruct Hind as (H1 & H2 & H3 & _).
    rewrite !elem_of_app in H1, H2, H3. repeat constructor; tauto.
Qed.

Lemma process_data_Ok_inv s o res :
  process_data s o = Ok res → columns_ok s o.
Proof.
  intros H. destruct (decide (columns_ok s o)) as [|Hn]; [done|].
  destruct (process_data_Raise s o Hn) as (e & He & _). congruence.
Qed.

(** The frames [process_data] returns whenever it returns. *)
Lemma process_data_inv s o merged_df shipping_df shopify_df :
  process_data s o = Ok (merged_df, shipping_df, shopify_df) →
  merged_df = mkDataFrame (merged_labels o)
                (derive <$> joined_rows (rows o) (normalise <$> rows s))
  ∧ shipping_df = mkDataFrame (shipping_labels s) (normalise <$> rows s)
  ∧ shopify_df = pd.rename shopify_renames o.
Proof.
  intros H. pose proof (process_data_Ok s o (process_data_Ok_inv _ _ _ H)) as H'.
  rewrite H in H'. by simplify_eq.
Qed.


(** ** Positions of a key *)

Lemma elem_of_positions k keys i j :
  j ∈ positions k keys i ↔ (i ≤ j)%nat ∧ keys !! (j - i)%nat = Some k.
Proof.
  revert i. induction keys as [|x keys IH]; intros i; simpl.
  - rewrite elem_of_nil. naive_solver.
  - case_decide as Hx; [rewrite elem_of_cons|]; rewrite IH; split.
    + intros [->|[Hle Hl]].
      * split; [lia|]. by rewrite Nat.sub_diag, Hx.
      * split; [lia|]. by replace (j - i)%nat with (S (j - S i)) by lia.
    + intros [Hle Hl]. destruct (decide (j = i)) as [->|Hne]; [by left|right].
      split; [lia|]. by replace (j - i)%nat with (S (j - S i)) in Hl by lia.
    + intros [Hle Hl]. split; [lia|].
      by replace (j - i)%nat with (S (j - S i)) by lia.
    + intros [Hle Hl]. destruct (decide (j = i)) as [->|Hne].
      * rewrite Nat.sub_diag in Hl. simpl in Hl. congruence.
      * split; [lia|]. by replace (j - i)%nat with (S (j - S i)) in Hl by lia.
Qed.

Lemma elem_of_positions_0 k keys j :
  j ∈ positions k keys 0 ↔ keys !! j = Some k.
Proof. rewrite elem_of_positions, Nat.sub_0_r. split; [tauto|]. split; [lia|done]. Qed.

Lemma length_positions k keys i :
  length (positions k keys i) = length (filter (λ x, x = k) keys).
Proof.
  revert i. induction keys as [|x keys IH]; intros i; simpl; [done|].
  rewrite filter_cons. case_decide; simpl; by rewrite IH.
Qed.

Lemma NoDup_positions k keys i : NoDup (positions k keys i).
Proof.
  revert i. induction keys as [|x keys IH]; intros i; simpl; [constructor|].
  case_decide; [|done]. constructor; [|done].
  rewrite elem_of_positions. lia.
Qed.

Lemma positions_nil_iff k keys : positions k keys 0 = [] ↔ k ∉ keys.
Proof.
  split.
  - intros H Hin. apply list_elem_of_lookup in Hin as [j Hj].
    apply elem_of_positions_0 in Hj. rewrite H in Hj. by apply elem_of_nil in Hj.
  - intros H. destruct (positions k keys 0) as [|j l] eqn:E; [done|].
    exfalso. apply H. assert (j ∈ positions k keys 0) as Hj by (rewrite E; left).
    apply elem_of_positions_0 in Hj. by eapply list_elem_of_lookup_2.
Qed.

(** ** Filtering a concatenation of groups *)

Lemma filter_bind {A B} (P : B → Prop) `{∀ x, Decision (P x)} (f : A → list B) (l : list A) :
  filter P (l ≫= f) = l ≫= (λ x, filter P (f x)).
Proof.
  induction l as [|x l IH]; [done|].
  rewrite !bind_cons, filter_app. by f_equal.
Qed.

Lemma bind_nil_all {A B} (f : A → list B) (l : list A) :
  (∀ x, x ∈ l → f x = []) → l ≫= f = [].
Proof.
  induction l as [|x l IH]; intros H; [done|].
  rewrite bind_cons, H, IH; [done| |left]. intros y Hy. apply H. by right.
Qed.

Lemma bind_single {A B} `{EqDecision A} (f : A → list B) (l : list A) (x : A) :
  NoDup l → x ∈ l → (∀ y, y ∈ l → y ≠ x → f y = []) → l ≫= f = f x.
Proof.
  induction 1 as [|y l Hy Hnd IH]; intros Hx Hf.
  - by apply elem_of_nil in Hx.
  - rewrite bind_cons. destruct (decide (y = x)) as [->|Hne].
    + rewrite bind_nil_all; [by rewrite app_nil_r|].
      intros z Hz. apply Hf; [by right|]. intros ->. done.
    + rewrite (Hf y); [|left|done]. simpl. apply IH.
      * apply elem_of_cons in Hx as [->|]; done.
      * intros z Hz. apply Hf. by right.
Qed.

Lemma bind_singletons {A B} (g : A → B) (l : list A) :
  l ≫= (λ x, [g x]) = g <$> l.
Proof. induction l as [|x l IH]; [done|]. rewrite bind_cons, IH. done. Qed.

Lemma filter_all {A} (P : A → Prop) `{∀ x, Decision (P x)} (l : list A) :
  Forall P l → filter P l = l.
Proof.
  induction 1 as [|x l Hx _ IH]; [done|]. by rewrite filter_cons, decide_True, IH.
Qed.

Lemma filter_none {A} (P : A → Prop) `{∀ x, Decision (P x)} (l : list A) :
  Forall (λ x, ¬ P x) l → filter P l = [].
Proof.
  induction 1 as [|x l Hx _ IH]; [done|]. by rewrite filter_cons, decide_False.
Qed.

Lemma filter_fmap_eq_single {A B} `{EqDecision A} (P : B → Prop) `{∀ x, Decision (P x)}
    (g : A → B) (l : list A) (x : A) :
  NoDup l → x ∈ l → (∀ y, P (g y) ↔ y = x) → filter P (g <$> l) = [g x].
Proof.
  intros Hnd Hx HP. rewrite <- bind_singletons, filter_bind.
  rewrite (bind_single _ l x); [| done | done |].
  - rewrite filter_cons, decide_True by (by apply HP). done.
  - intros y _ Hy. rewrite filter_cons, decide_False; [done|]. by rewrite HP.
Qed.

(** ** The key groups of the join *)

Lemma elem_of_omap_id {A} (l : list (option A)) (x : A) :
  x ∈ omap id l ↔ Some x ∈ l.
Proof. rewrite list_elem_of_omap. split; [intros ([y|] & ? & ?)|]; naive_solver. Qed.

Lemma elem_of_join_groups lk rk k :
  k ∈ pd.join_groups lk rk ↔ k ∈ lk ++ rk.
Proof.
  unfold pd.join_groups. rewrite elem_of_app, list_elem_of_fmap.
  setoid_rewrite merge_sort_Permutation. setoid_rewrite elem_of_remove_dups.
  setoid_rewrite elem_of_omap_id.
  split.
  - intros [(x & -> & Hx)|Hn]; [done|].
    case_decide; [|by apply elem_of_nil in Hn].
    apply list_elem_of_singleton in Hn as ->. done.
  - intros Hk. destruct k as [x|]; [left; eauto|right].
    rewrite decide_True by done. left.
Qed.

Lemma NoDup_join_groups lk rk : NoDup (pd.join_groups lk rk).
Proof.
  unfold pd.join_groups. apply NoDup_app. split; [|split].
  - apply NoDup_fmap; [apply _|]. rewrite merge_sort_Permutation. apply NoDup_remove_dups.
  - intros k Hk Hn. apply list_elem_of_fmap in Hk as (x & -> & _).
    case_decide; [|by apply elem_of_nil in Hn]. by apply list_elem_of_singleton in Hn.
  - case_decide; [apply NoDup_singleton|constructor].
Qed.

(** The shape of a key group, by the sides on which the key occurs. *)
Lemma join_group_cases lk rk k :
  ((k ∉ rk) ∧ pd.join_group lk rk k = (λ i, (Some i, None)) <$> positions k lk 0)
  ∨ ((k ∉ lk) ∧ k ∈ rk ∧ pd.join_group lk rk k = (λ j, (None, Some j)) <$> positions k rk 0)
  ∨ (k ∈ lk ∧ k ∈ rk ∧
     pd.join_group lk rk k =
       positions k lk 0 ≫= λ i, (λ j, (Some i, Some j)) <$> positions k rk 0).
Proof.
  unfold pd.join_group.
  pose proof (positions_nil_iff k lk) as Hl. pose proof (positions_nil_iff k rk) as Hr.
  destruct (positions k rk 0) as [|j0 rg] eqn:Er.
  - left. split; [by apply Hr|]. by destruct (positions k lk 0).
  - assert (k ∈ rk) as Hinr.
    { destruct (decide (k ∈ rk)) as [|Hn]; [done|]. by apply Hr in Hn. }
    destruct (positions k lk 0) as [|i0 lg] eqn:El.
    + right; left. split; [by apply Hl|]. done.
    + right; right. split; [|done].
      destruct (decide (k ∈ lk)) as [|Hn]; [done|]. by apply Hl in Hn.
Qed.

(** The group of a pair: its left index, when there is one, and its right
    index, when there is one, both carry the key of the group. *)
Lemma elem_of_join_group lk rk k p :
  p ∈ pd.join_group lk rk k ↔
    match p with
    | (Some i, None) => lk !! i = Some k ∧ k ∉ rk
    | (None, Some j) => rk !! j = Some k ∧ k ∉ lk
    | (Some i, Some j) => lk !! i = Some k ∧ rk !! j = Some k
    | (None, None) => False
    end.
Proof.
  assert (Hin : ∀ (keys : list text) (i : nat), keys !! i = Some k → k ∈ keys).
  { intros keys i Hi. by eapply list_elem_of_lookup_2. }
  destruct (join_group_cases lk rk k) as [(Hr & ->)|[(Hl & Hr & ->)|(Hl & Hr & ->)]].
  - rewrite list_elem_of_fmap. setoid_rewrite elem_of_positions_0.
    destruct p as [[i|] [j|]]; split.
    + intros (i' & ? & ?); simplify_eq.
    + intros [_ Hj]. destruct Hr. by eapply Hin.
    + intros (i' & ? & ?); by simplify_eq.
    + intros [Hi _]. by exists i.
    + intros (i' & ? & ?); simplify_eq.
    + intros [Hj _]. destruct Hr. by eapply Hin.
    + intros (i' & ? & ?); simplify_eq.
    + done.
  - rewrite list_elem_of_fmap. setoid_rewrite elem_of_positions_0.
    destruct p as [[i|] [j|]]; split.
    + intros (i' & ? & ?); simplify_eq.
    + intros [Hi _]. destruct Hl. by eapply Hin.
    + intros (i' & ? & ?); simplify_eq.
    + intros [Hi _]. destruct Hl. by eapply Hin.
    + intros (i' & ? & ?); by simplify_eq.
    + intros [Hj _]. by exists j.
    + intros (i' & ? & ?); simplify_eq.
    + done.
  - rewrite list_elem_of_bind. setoid_rewrite list_elem_of_fmap.
    setoid_rewrite elem_of_positions_0.
    destruct p as [[i|] [j|]]; split.
    + intros (i' & (j' & ? & ?) & ?); by simplify_eq.
    + intros [Hi Hj]. exists i. split; [by exists j|done].
    + intros (i' & (j' & ? & ?) & ?); simplify_eq.
    + intros [_ ?]. done.
    + intros (i' & (j' & ? & ?) & ?); simplify_eq.
    + intros [_ ?]. done.
    + intros (i' & (j' & ? & ?) & ?); simplify_eq.
    + done.
Qed.

Lemma length_bind_fmap {A B C} (g : A → B → C) (l : list A) (k : list B) :
  length (l ≫= λ x, g x <$> k) = (length l * length k)%nat.
Proof.
  induction l as [|x l IH]; [done|].
  rewrite bind_cons, length_app, length_fmap, IH. simpl. lia.
Qed.

Lemma length_join_group lk rk k :
  length (pd.join_group lk rk k) =
    if decide (occurrences k rk = 0)%nat then occurrences k lk
    else if decide (occurrences k lk = 0)%nat then occurrences k rk
    else (occurrences k lk * occurrences k rk)%nat.
Proof.
  unfold pd.join_group, occurrences.
  rewrite <- (length_positions k lk 0), <- (length_positions k rk 0).
  destruct (positions k rk 0) as [|j0 rg] eqn:Er.
  - rewrite decide_True by done. destruct (positions k lk 0); by rewrite length_fmap.
  - rewrite decide_False by done.
    destruct (positions k lk 0) as [|i0 lg] eqn:El.
    + rewrite decide_True by done. by rewrite length_fmap.
    + rewrite decide_False by done. by rewrite length_bind_fmap.
Qed.

Lemma occurrences_pos k keys : k ∈ keys ↔ (0 < occurrences k keys)%nat.
Proof.
  unfold occurrences. split.
  - intros H. assert (k ∈ filter (λ x, x = k) keys) as Hin by (by apply list_elem_of_filter).
    destruct (filter _ keys); [by apply elem_of_nil in Hin|simpl; lia].
  - intros H. destruct (filter (λ x, x = k) keys) as [|y l] eqn:E; [simpl in H; lia|].
    assert (y ∈ filter (λ x, x = k) keys) as Hin by (rewrite E; left).
    apply list_elem_of_filter in Hin as [-> ?]. done.
Qed.

(** ** The rows of the join *)

Section joined.
Context (ls : list Shopify.row) (rs : list Shipping.row).

Let lk := Shopify.tracking_number <$> ls.
Let rk := Shipping.tracking_number <$> rs.
Let row_at (p : option nat * option nat) : Merged.row :=
  pd.merge_row (p.1 ≫= (ls !!.)) (p.2 ≫= (rs !!.)).

Lemma lookup_left_key i k :
  lk !! i = Some k ↔ ∃ x, ls !! i = Some x ∧ Shopify.tracking_number x = k.
Proof. unfold lk. rewrite list_lookup_fmap_Some. naive_solver. Qed.

Lemma lookup_right_key j k :
  rk !! j = Some k ↔ ∃ y, rs !! j = Some y ∧ Shipping.tracking_number y = k.
Proof. unfold rk. rewrite list_lookup_fmap_Some. naive_solver. Qed.

(** Every row emitted for the group of [k] carries the key [k]. *)
Lemma row_at_key k p :
  p ∈ pd.join_group lk rk k → Merged.tracking_number (row_at p) = k.
Proof.
  rewrite elem_of_join_group. unfold row_at.
  destruct p as [[i|] [j|]]; simpl; try done.
  - intros [(x & -> & Hx)%lookup_left_key _]. done.
  - intros [(x & -> & Hx)%lookup_left_key _]. done.
  - intros [(y & -> & Hy)%lookup_right_key _]. done.
Qed.

Lemma joined_rows_groups :
  joined_rows ls rs = pd.join_groups lk rk ≫= (λ k, row_at <$> pd.join_group lk rk k).
Proof.
  unfold joined_rows, pd.full_outer_join. fold lk rk.
  induction (pd.join_groups lk rk) as [|k l IH]; [done|].
  rewrite !bind_cons, fmap_app. by f_equal.
Qed.

(** The number of joined rows that carry a given key. *)
Lemma joined_rows_key_count k :
  k ∈ lk ++ rk →
  length (filter (λ r, Merged.tracking_number r = k) (joined_rows ls rs))
  = length (pd.join_group lk rk k).
Proof.
  intros Hk. rewrite joined_rows_groups, filter_bind.
  rewrite (bind_single _ _ k);
    [| apply NoDup_join_groups | by apply elem_of_join_groups |].
  - rewrite filter_all, length_fmap; [done|].
    apply Forall_fmap, Forall_forall. intros p Hp. by apply row_at_key.
  - intros k' _ Hne. apply filter_none, Forall_fmap, Forall_forall.
    intros p Hp. simpl. intros Hk'. apply Hne. rewrite <- Hk'. symmetry. by apply row_at_key.
Qed.
End joined.

(** ** Where an input row goes *)

(** The pairs of the join in which the left row [i] takes part: one pair per
    right row with the same key, or a single unpaired one when there is none. *)
Lemma left_occurrences (lk rk : list text) (i : nat) (k : text) :
  lk !! i = Some k →
  filter (λ p, p.1 = Some i) (pd.full_outer_join lk rk) =
    if decide (k ∈ rk) then (λ j, (Some i, Some j)) <$> positions k rk 0
    else [(Some i, None)].
Proof.
  intros Hi. unfold pd.full_outer_join. rewrite filter_bind.
  assert (Hkl : k ∈ lk) by (by eapply list_elem_of_lookup_2).
  rewrite (bind_single _ _ k); [| apply NoDup_join_groups | | ].
  - destruct (join_group_cases lk rk k) as [(Hr & ->)|[(Hl & Hr & ->)|(Hl & Hr & ->)]].
    + rewrite decide_False by done.
      apply (filter_fmap_eq_single _ (λ i, (Some i, None))).
      * apply NoDup_positions.
      * by apply elem_of_positions_0.
      * intros y. simpl. split; [by intros [= ->]|by intros ->].
    + done.
    + rewrite decide_True by done. rewrite filter_bind.
      rewrite (bind_single _ _ i); [| apply NoDup_positions | by apply elem_of_positions_0 |].
      * apply filter_all, Forall_fmap, Forall_forall. by intros j _.
      * intros i' _ Hne. apply filter_none, Forall_fmap, Forall_forall.
        intros j _. simpl. by intros [= ->].
  - apply elem_of_join_groups, elem_of_app. by left.
  - intros k' _ Hne. apply filter_none, Forall_forall.
    intros [[i'|] [j'|]] Hp%elem_of_join_group; simpl; intros [= ->];
      destruct Hp as [Hp _]; congruence.
Qed.

(** The pairs of the join in which the right row [j] takes part. *)
Lemma right_occurrences (lk rk : list text) (j : nat) (k : text) :
  rk !! j = Some k →
  filter (λ p, p.2 = Some j) (pd.full_outer_join lk rk) =
    if decide (k ∈ lk) then (λ i, (Some i, Some j)) <$> positions k lk 0
    else [(None, Some j)].
Proof.
  intros Hj. unfold pd.full_outer_join. rewrite filter_bind.
  assert (Hkr : k ∈ rk) by (by eapply list_elem_of_lookup_2).
  rewrite (bind_single _ _ k); [| apply NoDup_join_groups | | ].
  - destruct (join_group_cases lk rk k) as [(Hr & ->)|[(Hl & Hr & ->)|(Hl & Hr & ->)]].
    + done.
    + rewrite decide_False by done.
      apply (filter_fmap_eq_single _ (λ j, (None, Some j))).
      * apply NoDup_positions.
      * by apply elem_of_positions_0.
      * intros y. simpl. split; [by intros [= ->]|by intros ->].
    + rewrite decide_True by done. rewrite filter_bind.
      rewrite <- bind_singletons. apply list_bind_ext; [|done].
      intros i. apply (filter_fmap_eq_single _ (λ j, (Some i, Some j))).
      * apply NoDup_positions.
      * by apply elem_of_positions_0.
      * intros y. simpl. split; [by intros [= ->]|by intros ->].
  - apply elem_of_join_groups, elem_of_app. by right.
  - intros k' _ Hne. apply filter_none, Forall_forall.
    intros [[i'|] [j'|]] Hp%elem_of_join_group; simpl; intros [= ->];
      destruct Hp as [Hp Hp']; congruence.
Qed.

(** ** The join inside [process_data] *)

Lemma process_data_rows s o merged_df shipping_df shopify_df :
  process_data s o = Ok (merged_df, shipping_df, shopify_df) →
  rows merged_df
  = joined_row (rows shopify_df) (rows shipping_df)
      <$> pd.full_outer_join (order_keys shopify_df) (shipment_keys shipping_df)
  ∧ rows shipping_df = normalise <$> rows s
  ∧ rows shopify_df = rows o.
Proof.
  intros (-> & -> & ->)%process_data_inv. cbn [rows pd.rename].
  split; [|done]. unfold joined_rows, joined_row, order_keys, shipment_keys.
  cbn [rows]. by rewrite <- list_fmap_compose.
Qed.

Lemma occurrences_fmap {A} (f : A → text) (k : text) (l : list A) :
  occurrences k (f <$> l) = length (filter (λ r, f r = k) l).
Proof.
  unfold occurrences. induction l as [|x l IH]; [done|]. csimpl.
  rewrite !filter_cons. case_decide; simpl; by rewrite IH.
Qed.

Lemma joined_keys_occurrences ls rs k :
  k ∈ (Shopify.tracking_number <$> ls) ++ (Shipping.tracking_number <$> rs) →
  occurrences k (Merged.tracking_number <$> (derive <$> joined_rows ls rs))
  = length (pd.join_group (Shopify.tracking_number <$> ls)
              (Shipping.tracking_number <$> rs) k).
Proof.
  intros Hk. rewrite <- list_fmap_compose, occurrences_fmap.
  by apply joined_rows_key_count.
Qed.

Lemma elem_of_full_outer_join_left (lk rk : list text) (i : nat) :
  i < length lk → ∃ p, p ∈ pd.full_outer_join lk rk ∧ p.1 = Some i.
Proof.
  intros Hi. destruct (lookup_lt_is_Some_2 lk i Hi) as [k Hk].
  pose proof (left_occurrences lk rk i k Hk) as Hf.
  assert (∃ p, p ∈ filter (λ p, p.1 = Some i) (pd.full_outer_join lk rk)) as [p Hp].
  { rewrite Hf. case_decide as Hr; [|by eexists; apply list_elem_of_singleton].
    apply list_elem_of_lookup in Hr as [j Hj]. exists (Some i, Some j).
    apply list_elem_of_fmap. exists j. split; [done|]. by apply elem_of_positions_0. }
  apply list_elem_of_filter in Hp as [? ?]. exists p. by split.
Qed.

Lemma elem_of_full_outer_join_right (lk rk : list text) (j : nat) :
  j < length rk → ∃ p, p ∈ pd.full_outer_join lk rk ∧ p.2 = Some j.
Proof.
  intros Hj. destruct (lookup_lt_is_Some_2 rk j Hj) as [k Hk].
  pose proof (right_occurrences lk rk j k Hk) as Hf.
  assert (∃ p, p ∈ filter (λ p, p.2 = Some j) (pd.full_outer_join lk rk)) as [p Hp].
  { rewrite Hf. case_decide as Hl; [|by eexists; apply list_elem_of_singleton].
    apply list_elem_of_lookup in Hl as [i Hi]. exists (Some i, Some j).
    apply list_elem_of_fmap. exists i. split; [done|]. by apply elem_of_positions_0. }
  apply list_elem_of_filter in Hp as [? ?]. exists p. by split.
Qed.

(** C1. Outer-join cardinality: the rows of the merged frame are the joined
    lines of the index pairs of the join; a tracking key carried by lines of
    both processed frames is carried by as many joined lines as the product
    of the two numbers of lines; and every line of either frame takes part
    in at least one joined line, so none is dropped. *)
Theorem outer_join_cardinality s o merged_df shipping_df shopify_df :
  process_data s o = Ok (merged_df, shipping_df, shopify_df) →
  let idx := pd.full_outer_join (order_keys shopify_df) (shipment_keys shipping_df) in
  rows merged_df = joined_row (rows shopify_df) (rows shipping_df) <$> idx
  ∧ (∀ k : string,
       Some k ∈ shipment_keys shipping_df → Some k ∈ order_keys shopify_df →
       occurrences (Some k) (joined_keys merged_df)
       = (occurrences (Some k) (shipment_keys shipping_df)
          * occurrences (Some k) (order_keys shopify_df))%nat)
  ∧ (∀ i, i < length (rows shopify_df) → ∃ p, p ∈ idx ∧ p.1 = Some i)
  ∧ (∀ j, j < length (rows shipping_df) → ∃ p, p ∈ idx ∧ p.2 = Some j).
Proof.
  intros H. pose proof (process_data_rows _ _ _ _ _ H) as (Hrows & _ & _).
  cbn zeta. split; [done|]. split; [|split].
  - intros k Hr Hl.
    apply process_data_inv in H as (-> & -> & ->).
    unfold joined_keys, shipment_keys, order_keys in *. cbn [rows pd.rename] in *.
    rewrite joined_keys_occurrences by (apply elem_of_app; by left).
    rewrite length_join_group.
    apply occurrences_pos in Hr, Hl.
    rewrite !decide_False by lia. lia.
  - intros i Hi. apply elem_of_full_outer_join_left.
    unfold order_keys. by rewrite length_fmap.
  - intros j Hj. apply elem_of_full_outer_join_right.
    unfold shipment_keys. by rewrite length_fmap.
Qed.

Lemma outer_join_cardinality_witness :
  ∃ merged_df shipping_df shopify_df,
    process_data repeated_shipping repeated_shopify = Ok (merged_df, shipping_df, shopify_df)
    ∧ occurrences (Some "T1") (joined_keys merged_df) = 6
    ∧ length (rows merged_df) = 8.
Proof.
  destruct (process_data repeated_shipping repeated_shopify)
    as [[[merged_df shipping_df] shopify_df]|e] eqn:E; [|by vm_compute in E].
  exists merged_df, shipping_df, shopify_df. split; [done|].
  destruct (outer_join_cardinality _ _ _ _ _ E) as (Hrows & Hcount & _).
  split.
  - rewrite (Hcount "T1").
    + apply process_data_inv in E as (_ & -> & ->). by vm_compute.
    + apply process_data_inv in E as (_ & -> & ->). label_in.
    + apply process_data_inv in E as (_ & -> & ->). label_in.
  - apply process_data_inv in E as (-> & _ & _). by vm_compute.
Defined.

(** ** Missing tracking keys *)

Lemma merge_row_indicator (l : option Shopify.row) (r : option Shipping.row) :
  Merged._merge (derive (pd.merge_row l r)) =
    match l, r with
    | Some _, Some _ => both
    | Some _, None => left_only
    | None, _ => right_only
    end.
Proof. done. Qed.

(** C3, as the code has it. The join treats the missing key like any other
    key. An order line without a tracking key gives exactly one joined line,
    tagged [left_only], when no ledger line lacks its key; otherwise it is
    paired with every ledger line that lacks its key, and the pairs are
    tagged [both]. The same holds for a ledger line, with [right_only]. *)
Theorem null_keys_join s o merged_df shipping_df shopify_df :
  process_data s o = Ok (merged_df, shipping_df, shopify_df) →
  let lk := order_keys shopify_df in
  let rk := shipment_keys shipping_df in
  let idx := pd.full_outer_join lk rk in
  let row := joined_row (rows shopify_df) (rows shipping_df) in
  rows merged_df = row <$> idx
  ∧ (∀ i x, rows shopify_df !! i = Some x → Shopify.tracking_number x = None →
       if decide (None ∈ rk)
       then filter (λ p, p.1 = Some i) idx = (λ j, (Some i, Some j)) <$> positions None rk 0
            ∧ ∀ j, j ∈ positions None rk 0 → Merged._merge (row (Some i, Some j)) = both
       else filter (λ p, p.1 = Some i) idx = [(Some i, None)]
            ∧ Merged._merge (row (Some i, None)) = left_only)
  ∧ (∀ j y, rows shipping_df !! j = Some y → Shipping.tracking_number y = None →
       if decide (None ∈ lk)
       then filter (λ p, p.2 = Some j) idx = (λ i, (Some i, Some j)) <$> positions None lk 0
            ∧ ∀ i, i ∈ positions None lk 0 → Merged._merge (row (Some i, Some j)) = both
       else filter (λ p, p.2 = Some j) idx = [(None, Some j)]
            ∧ Merged._merge (row (None, Some j)) = right_only).
Proof.
  intros H. pose proof (process_data_rows _ _ _ _ _ H) as (Hrows & _ & _).
  cbn zeta. split; [done|]. split.
  - intros i x Hi Hx.
    assert (order_keys shopify_df !! i = Some None) as Hk.
    { unfold order_keys. apply list_lookup_fmap_Some. eauto. }
    rewrite (left_occurrences _ _ _ _ Hk).
    case_decide as Hr; (split; [done|]).
    + intros j Hj%elem_of_positions_0. unfold shipment_keys in Hj.
      apply list_lookup_fmap_Some in Hj as (y & _ & Hy).
      unfold joined_row. rewrite merge_row_indicator. simpl. by rewrite Hi, Hy.
    + unfold joined_row. rewrite merge_row_indicator. simpl. by rewrite Hi.
  - intros j y Hj Hy.
    assert (shipment_keys shipping_df !! j = Some None) as Hk.
    { unfold shipment_keys. apply list_lookup_fmap_Some. eauto. }
    rewrite (right_occurrences _ _ _ _ Hk).
    case_decide as Hl; (split; [done|]).
    + intros i Hi%elem_of_positions_0. unfold order_keys in Hi.
      apply list_lookup_fmap_Some in Hi as (x & _ & Hx).
      unfold joined_row. rewrite merge_row_indicator. simpl. by rewrite Hx, Hj.
    + unfold joined_row. by rewrite merge_row_indicator.
Qed.

Lemma null_keys_join_witness :
  ∃ merged_df shipping_df shopify_df,
    process_data repeated_shipping repeated_shopify = Ok (merged_df, shipping_df, shopify_df)
    ∧ filter (λ p, p.1 = Some 1)
        (pd.full_outer_join (order_keys shopify_df) (shipment_keys shipping_df))
      = [(Some 1, None)]
    ∧ Merged._merge (joined_row (rows shopify_df) (rows shipping_df) (Some 1, None))
      = left_only.
Proof.
  destruct (process_data repeated_shipping repeated_shopify)
    as [[[merged_df shipping_df] shopify_df]|e] eqn:E; [|by vm_compute in E].
  exists merged_df, shipping_df, shopify_df. split; [done|].
  destruct (null_keys_join _ _ _ _ _ E) as (_ & Hleft & _).
  pose proof (process_data_inv _ _ _ _ _ E) as (_ & -> & ->).
  specialize (Hleft 1 (order_line (Some "O2") None (Fin 30) (Fin 5) (Some "Canada"))
                eq_refl eq_refl).
  rewrite decide_False in Hleft by label_notin. exact Hleft.
Defined.

(** C3, as stated, fails: a ledger line and an order line that both lack a
    tracking key are joined into one line tagged [both]. *)
Lemma null_keys_are_matched : ¬ null_keys_never_match keyless_shipping keyless_shopify.
Proof.
  intros H.
  destruct (process_data keyless_shipping keyless_shopify)
    as [[[merged_df shipping_df] shopify_df]|e] eqn:E; [|by vm_compute in E].
  destruct (H _ _ _ E) as [Hnever _].
  vm_compute in E. injection E as <- _ _.
  eapply Hnever; [left|reflexivity|reflexivity].
Qed.

(** ** The normaliser *)

Lemma normalise_fields r :
  Shipping.shipping_cost_usd (normalise r) = fmul (Shipping.shipping_cost_rmb r) RMB_TO_USD
  ∧ Shipping.country_from_shipping (normalise r) = translate_country (Shipping.country_chinese r)
  ∧ Shipping.shipping_cost_rmb (normalise r) = Shipping.shipping_cost_rmb r
  ∧ Shipping.country_chinese (normalise r) = Shipping.country_chinese r
  ∧ Shipping.tracking_number (normalise r) = Shipping.tracking_number r
  ∧ Shipping.ship_date (normalise r) = Shipping.ship_date r
  ∧ Shipping.weight_kg (normalise r) = Shipping.weight_kg r
  ∧ Shipping.internal_order_id (normalise r) = Shipping.internal_order_id r.
Proof. by repeat split. Qed.

Lemma fmul_rate_exact (q : Q) :
  ∃ q', fmul (Fin q) RMB_TO_USD = Fin q' ∧ (q' == q * (139 # 1000))%Q.
Proof. eexists. split; [reflexivity|]. apply Qred_correct. Qed.

(** The cost columns of a joined line come from one ledger line, or are both
    missing. *)
Lemma joined_row_cost ls rs p :
  Forall (λ r, Shipping.shipping_cost_usd r = fmul (Shipping.shipping_cost_rmb r) RMB_TO_USD) rs →
  Merged.shipping_cost_usd (joined_row ls rs p)
  = fmul (Merged.shipping_cost_rmb (joined_row ls rs p)) RMB_TO_USD.
Proof.
  intros Hrs. unfold joined_row. destruct p as [i [j|]]; simpl; [|done].
  destruct (rs !! j) as [y|] eqn:Hy; simpl; [|done].
  rewrite Forall_forall in Hrs. apply Hrs. by eapply list_elem_of_lookup_2.
Qed.

(** C8. Every line of the processed ledger, and every joined line, carries a
    USD cost equal to its RMB cost times [RMB_TO_USD]; on a numeric cost the
    product is the exact rational product with 139/1000. *)
Theorem cost_usd_is_converted s o merged_df shipping_df shopify_df :
  process_data s o = Ok (merged_df, shipping_df, shopify_df) →
  (∀ r, r ∈ rows shipping_df →
     Shipping.shipping_cost_usd r = fmul (Shipping.shipping_cost_rmb r) RMB_TO_USD
     ∧ ∀ q, Shipping.shipping_cost_rmb r = Fin q →
         ∃ q', Shipping.shipping_cost_usd r = Fin q' ∧ (q' == q * (139 # 1000))%Q)
  ∧ (∀ r, r ∈ rows merged_df →
     Merged.shipping_cost_usd r = fmul (Merged.shipping_cost_rmb r) RMB_TO_USD).
Proof.
  intros H. pose proof (process_data_rows _ _ _ _ _ H) as (Hm & Hs & _).
  assert (Hall : ∀ r, r ∈ rows shipping_df →
            Shipping.shipping_cost_usd r = fmul (Shipping.shipping_cost_rmb r) RMB_TO_USD).
  { intros r Hr. rewrite Hs in Hr. apply list_elem_of_fmap in Hr as (r0 & -> & _). done. }
  split.
  - intros r Hr. split; [by apply Hall|].
    intros q Hq. rewrite (Hall r Hr), Hq. apply fmul_rate_exact.
  - intros r Hr. rewrite Hm in Hr. apply list_elem_of_fmap in Hr as (p & -> & _).
    apply joined_row_cost. by apply Forall_forall.
Qed.

Lemma cost_usd_is_converted_witness :
  ∃ merged_df shipping_df shopify_df,
    process_data sample_shipping sample_shopify = Ok (merged_df, shipping_df, shopify_df)
    ∧ ∀ r, r ∈ rows merged_df →
        Merged.shipping_cost_usd r = fmul (Merged.shipping_cost_rmb r) RMB_TO_USD.
Proof.
  destruct (process_data sample_shipping sample_shopify)
    as [[[merged_df shipping_df] shopify_df]|e] eqn:E; [|by vm_compute in E].
  exists merged_df, shipping_df, shopify_df. split; [done|].
  exact (proj2 (cost_usd_is_converted _ _ _ _ _ E)).
Defined.

Lemma translate_country_miss (label : string) :
  COUNTRY_MAP !! label = None → translate_country (Some label) = Some label.
Proof.
  intros H.
  change (translate_country (Some label))
    with (from_option Some (Some label) (COUNTRY_MAP !! label)).
  by rewrite H.
Qed.

Lemma translate_country_hit (label english : string) :
  COUNTRY_MAP !! label = Some english → translate_country (Some label) = Some english.
Proof.
  intros H.
  change (translate_country (Some label))
    with (from_option Some (Some label) (COUNTRY_MAP !! label)).
  by rewrite H.
Qed.

(** C9. A label that is not a key of [COUNTRY_MAP] is passed through
    unchanged, and so is a missing label; the processed ledger has one line
    per input line, in the same order, each with the translation of its own
    label and its other columns untouched. *)
Theorem translation_miss_passes_through s o merged_df shipping_df shopify_df :
  process_data s o = Ok (merged_df, shipping_df, shopify_df) →
  (∀ label : string,
     COUNTRY_MAP !! label = None → translate_country (Some label) = Some label)
  ∧ translate_country None = None
  ∧ length (rows shipping_df) = length (rows s)
  ∧ (∀ i r, rows s !! i = Some r →
       ∃ r', rows shipping_df !! i = Some r'
         ∧ Shipping.country_from_shipping r' = translate_country (Shipping.country_chinese r)
         ∧ Shipping.country_chinese r' = Shipping.country_chinese r
         ∧ Shipping.tracking_number r' = Shipping.tracking_number r
         ∧ Shipping.shipping_cost_rmb r' = Shipping.shipping_cost_rmb r).
Proof.
  intros H. pose proof (process_data_rows _ _ _ _ _ H) as (_ & Hs & _).
  split; [apply translate_country_miss|]. split; [done|]. split.
  - by rewrite Hs, length_fmap.
  - intros i r Hi. exists (normalise r). split; [|done].
    rewrite Hs, list_lookup_fmap, Hi. done.
Qed.

Lemma translation_miss_passes_through_witness :
  ∃ merged_df shipping_df shopify_df,
    process_data sample_shipping sample_shopify = Ok (merged_df, shipping_df, shopify_df)
    ∧ translate_country (Some "火星") = Some "火星"
    ∧ length (rows shipping_df) = length (rows sample_shipping).
Proof.
  destruct (process_data sample_shipping sample_shopify)
    as [[[merged_df shipping_df] shopify_df]|e] eqn:E; [|by vm_compute in E].
  exists merged_df, shipping_df, shopify_df. split; [done|].
  destruct (translation_miss_passes_through _ _ _ _ _ E) as (Hmiss & _ & Hlen & _).
  split; [|done]. apply Hmiss. by vm_compute.
Defined.

(** ** The derived metrics *)

Lemma derive_fields r :
  Merged.shipping_pct (derive r)
  = fround2 (fmul (fdiv (Merged.shipping_cost_usd r) (Merged.net_payout r)) (Fin 100))
  ∧ Merged.profit (derive r)
    = fsub (fsub (Merged.net_payout r) (Merged.product_cost r)) (Merged.shipping_cost_usd r)
  ∧ Merged.shipping_cost_usd (derive r) = Merged.shipping_cost_usd r
  ∧ Merged.net_payout (derive r) = Merged.net_payout r
  ∧ Merged.product_cost (derive r) = Merged.product_cost r.
Proof. by repeat split. Qed.

Lemma pct_missing_payout (cost : float) :
  fround2 (fmul (fdiv cost NaN) (Fin 100)) = NaN.
Proof. by destruct cost. Qed.

Lemma pct_zero_payout (cost payout : float) :
  is_zero payout = true →
  (fround2 (fmul (fdiv cost payout) (Fin 100)) = NaN ↔ cost = NaN ∨ is_zero cost = true)
  ∧ (cost ≠ NaN → is_zero cost = false →
       is_inf (fround2 (fmul (fdiv cost payout) (Fin 100))) = true).
Proof.
  destruct payout as [y| | |]; simpl; try done. intros Hy.
  destruct cost as [x| | |]; simpl; rewrite ?Hy.
  - destruct x as [n d]. unfold Qsign. simpl.
    destruct n; simpl; (split; [split; [intros H; try done; by right|intros [H|H]; done]|done]).
  - apply Z.eqb_eq in Hy. rewrite Hy. simpl. split; [|done]. split; [done|]. by intros [|].
  - apply Z.eqb_eq in Hy. rewrite Hy. simpl. split; [|done]. split; [done|]. by intros [|].
  - split; [|done]. split; [by left|done].
Qed.

Lemma columns_ok_zero_payouts s o zero :
  columns_ok s o → columns_ok s (zero_payouts zero o).
Proof. done. Qed.

(** C2, as the code has it. On every joined line of a run of [process_data]
    that returns, the shipping percentage is missing when the payout is
    missing; when the payout is zero it is missing only if the cost is
    missing or zero, and is an infinity, which is not a missing value,
    otherwise. The division by zero raises nothing: [process_data] still
    returns after the payout of any of the order lines is set to zero. *)
Theorem shipping_pct_on_undefined_payout s o merged_df shipping_df shopify_df :
  process_data s o = Ok (merged_df, shipping_df, shopify_df) →
  (∀ r, r ∈ rows merged_df →
     (Merged.net_payout r = NaN → Merged.shipping_pct r = NaN)
     ∧ (is_zero (Merged.net_payout r) = true →
          (Merged.shipping_pct r = NaN ↔
             Merged.shipping_cost_usd r = NaN
             ∨ is_zero (Merged.shipping_cost_usd r) = true)
          ∧ (Merged.shipping_cost_usd r ≠ NaN →
             is_zero (Merged.shipping_cost_usd r) = false →
             is_inf (Merged.shipping_pct r) = true)))
  ∧ (∀ zero, ∃ res, process_data s (zero_payouts zero o) = Ok res).
Proof.
  intros H. split.
  - apply process_data_inv in H as (-> & _ & _).
    cbn [rows]. intros r (r0 & -> & _)%list_elem_of_fmap.
    destruct (derive_fields r0) as (-> & _ & -> & -> & _). split.
    + intros ->. apply pct_missing_payout.
    + apply pct_zero_payout.
  - intros zero. eexists. apply process_data_Ok, columns_ok_zero_payouts.
    by eapply process_data_Ok_inv.
Qed.

Lemma shipping_pct_on_undefined_payout_witness :
  ∃ merged_df shipping_df shopify_df,
    process_data zero_payout_shipping zero_payout_shopify
    = Ok (merged_df, shipping_df, shopify_df)
    ∧ (∀ r, r ∈ rows merged_df → is_inf (Merged.shipping_pct r) = true)
    ∧ ∃ res, process_data sample_shipping (zero_payouts (λ _, true) sample_shopify) = Ok res.
Proof.
  destruct (process_data zero_payout_shipping zero_payout_shopify)
    as [[[merged_df shipping_df] shopify_df]|e] eqn:E; [|by vm_compute in E].
  exists merged_df, shipping_df, shopify_df. split; [done|]. split.
  - destruct (shipping_pct_on_undefined_payout _ _ _ _ _ E) as (Hrows & _).
    intros r Hr. destruct (Hrows r Hr) as (_ & Hzero).
    vm_compute in E. injection E as <- _ _.
    apply list_elem_of_singleton in Hr as ->. by apply Hzero.
  - assert (process_data sample_shipping sample_shopify
            = Ok (sample_merged, sample_ledger, sample_orders)) as E' by (by vm_compute).
    apply (shipping_pct_on_undefined_payout _ _ _ _ _ E').
Defined.

(** C2, as stated, fails: a payout of zero against a cost of 13.9 USD gives
    the percentage [PInf], a value that is not missing. *)
Lemma zero_payout_gives_infinity :
  ¬ pct_null_on_zero_payout zero_payout_shipping zero_payout_shopify.
Proof.
  intros H.
  destruct (process_data zero_payout_shipping zero_payout_shopify)
    as [[[merged_df shipping_df] shopify_df]|e] eqn:E; [|by vm_compute in E].
  specialize (H _ _ _ E). vm_compute in E. injection E as <- _ _.
  specialize (H _ (list_elem_of_here _ _) (or_intror eq_refl)). discriminate H.
Qed.

(** ** Column resolution *)





(** ** Counting order numbers *)

Lemma elem_of_unique {A} `{EqDecision A} (l : list A) (x : A) :
  x ∈ unique l ↔ x ∈ l.
Proof.
  induction l as [|y l IH]; simpl; [done|].
  rewrite !elem_of_cons, list_elem_of_filter, IH.
  destruct (decide (x = y)); naive_solver.
Qed.

Lemma NoDup_unique {A} `{EqDecision A} (l : list A) : NoDup (unique l).
Proof.
  induction l as [|y l IH]; simpl; [constructor|].
  constructor; [|by apply NoDup_filter].
  rewrite list_elem_of_filter. naive_solver.
Qed.

Lemma occurrences_omap (v : string) (s : list text) :
  length (filter (λ x, x = v) (omap id s)) = occurrences (Some v) s.
Proof.
  unfold occurrences. induction s as [|[x|] s IH]; csimpl; [done| |].
  - rewrite !filter_cons. destruct (decide (x = v)) as [->|Hne].
    + rewrite decide_True by done. simpl. by f_equal.
    + rewrite decide_False by congruence. done.
  - rewrite filter_cons, decide_False by done. done.
Qed.

Lemma elem_of_value_counts (s : list text) (v : string) (c : nat) :
  (v, c) ∈ pd.value_counts s ↔ Some v ∈ s ∧ c = occurrences (Some v) s.
Proof.
  unfold pd.value_counts. rewrite merge_sort_Permutation, list_elem_of_fmap.
  setoid_rewrite elem_of_unique. setoid_rewrite elem_of_omap_id.
  setoid_rewrite occurrences_omap. split.
  - intros (v' & [= -> ->] & Hv). done.
  - intros [Hv ->]. by exists v.
Qed.

Lemma NoDup_value_counts (s : list text) : NoDup (pd.value_counts s).*1.
Proof.
  unfold pd.value_counts. rewrite merge_sort_Permutation, <- list_fmap_compose.
  assert (∀ l : list string,
            fst ∘ (λ v, (v, length (filter (λ x, x = v) (omap id s)))) <$> l = l) as ->.
  { induction l; csimpl; by f_equal. }
  apply NoDup_unique.
Qed.

(** ** Loops over the rows *)

Lemma for_each_Ok {A B} (f : A → result B) (g : A → B) (l : list A) :
  (∀ x, x ∈ l → f x = Ok (g x)) → for_each f l = Ok (g <$> l).
Proof.
  induction l as [|x l IH]; intros H; [done|]. simpl.
  rewrite (H x) by left. cbn [mbind result_bind].
  rewrite IH; [done|]. intros y Hy. apply H. by right.
Qed.

Lemma row_getitem_Ok {A V} (df : DataFrame A) (r : A) c (get : A → V) :
  c ∈ columns df → pd.row_getitem df r c get = Ok (get r).
Proof. intros H. unfold pd.row_getitem. by rewrite decide_True. Qed.

Lemma occurrences_order_rows (os : list Shopify.row) (v : string) :
  length (order_rows os v) = occurrences (Some v) (Shopify.order_number <$> os).
Proof. by rewrite occurrences_fmap. Qed.

Lemma loc_rows_pred {A} (df : DataFrame A) (f : A → bool) (P : A → Prop)
    `{∀ x, Decision (P x)} :
  (∀ x, f x = true ↔ P x) →
  rows (pd.loc df (f <$> rows df)) = filter P (rows df).
Proof. intros H'. rewrite loc_rows_fmap. by apply list_filter_iff. Qed.

Lemma concat_fmap_if {A B} (c : A → bool) (g : A → B) (l : list A) :
  concat ((λ x, if c x then [g x] else []) <$> l) = g <$> filter (λ x, c x = true) l.
Proof.
  induction l as [|x l IH]; [done|]. csimpl. rewrite filter_cons.
  destruct (c x).
  - rewrite decide_True by done. csimpl. by f_equal.
  - rewrite decide_False by done. done.
Qed.

Lemma filter_filter_and {A} (P Q : A → Prop) `{∀ x, Decision (P x)} `{∀ x, Decision (Q x)}
    (l : list A) :
  filter P (filter Q l) = filter (λ x, P x ∧ Q x) l.
Proof.
  induction l as [|x l IH]; [done|]. rewrite !filter_cons.
  destruct (decide (Q x)).
  - rewrite filter_cons. destruct (decide (P x)).
    + rewrite decide_True by done. by f_equal.
    + rewrite decide_False by tauto. done.
  - rewrite decide_False by tauto. done.
Qed.

Lemma bind_Ok_inv {A B} (f : A → result B) (m : result A) (b : B) :
  m ≫= f = Ok b → ∃ a, m = Ok a ∧ f a = Ok b.
Proof. destruct m as [a|e]; [|done]. intros H. by exists a. Qed.

Lemma for_each_elem_Ok {A B} (f : A → result B) (l : list A) res :
  for_each f l = Ok res → ∀ x, x ∈ l → ∃ y, f x = Ok y.
Proof.
  revert res. induction l as [|x l IH]; intros res H y Hy; [by apply elem_of_nil in Hy|].
  simpl in H. apply bind_Ok_inv in H as (y0 & Hx & H).
  apply bind_Ok_inv in H as (ys & Hl & _).
  apply elem_of_cons in Hy as [->|Hy]; [by exists y0|by eapply IH].
Qed.

Lemma row_getitem_label {A V} (df : DataFrame A) (r : A) c (get : A → V) v :
  pd.row_getitem df r c get = Ok v → c ∈ columns df ∧ v = get r.
Proof. unfold pd.row_getitem. case_decide; naive_solver. Qed.

Lemma elem_of_loc {A} (df : DataFrame A) (f : A → bool) (r : A) :
  r ∈ rows (pd.loc df (f <$> rows df)) ↔ f r = true ∧ r ∈ rows df.
Proof. by rewrite loc_rows_fmap, list_elem_of_filter. Qed.

Lemma unmatched_order_mask (r : Merged.row) :
  bool_decide (Merged._merge r = left_only)
  && pd.str_contains_na_false "4PX" (Merged.tracking_number r) = true
  ↔ is_unmatched_order r.
Proof.
  unfold is_unmatched_order. rewrite andb_true_iff, bool_decide_eq_true.
  destruct (Merged.tracking_number r) as [t|]; simpl; split.
  - intros [? ?]. eauto.
  - intros (? & t' & [= <-] & ?). done.
  - intros [? ?]. done.
  - intros (? & t' & [=] & ?).
Qed.

Lemma country_mismatch_mask (r : Merged.row) :
  (text_notna (Merged.country r) && text_notna (Merged.country_from_shipping r) = true
   ∧ pd.ne (Merged.country r) (Merged.country_from_shipping r) = true)
  ∧ bool_decide (Merged._merge r = both) = true
  ↔ is_country_mismatch r.
Proof.
  unfold is_country_mismatch. rewrite bool_decide_eq_true.
  destruct (Merged.country r) as [c|], (Merged.country_from_shipping r) as [c'|];
    simpl; split.
  - intros ((_ & Hne%bool_decide_eq_true) & Hb). eauto 6.
  - intros (Hb & ? & ? & [= <-] & [= <-] & Hne).
    repeat split; try done. by apply bool_decide_eq_true.
  - intros (([=] & _) & _).
  - intros (_ & ? & ? & _ & [=] & _).
  - intros (([=] & _) & _).
  - intros (_ & ? & ? & [=] & _).
  - intros (([=] & _) & _).
  - intros (_ & ? & ? & [=] & _).
Qed.

(** The labels [identify_issues] has found when it returns. *)
Lemma identify_issues_labels m o report :
  identify_issues m o = Ok report → issue_labels_ok m o.
Proof.
  intros H. unfold identify_issues in H.
  apply bind_Ok_inv in H as (ind & [Hm1 ->]%getitem_inv & H).
  apply bind_Ok_inv in H as (l1 & E1 & H).
  apply bind_Ok_inv in H as (ind & [_ ->]%getitem_inv & H).
  apply bind_Ok_inv in H as (tn & [Hm2 ->]%getitem_inv & H).
  apply bind_Ok_inv in H as (l2 & E2 & H).
  apply bind_Ok_inv in H as (ons & [Ho1 ->]%getitem_inv & H).
  apply bind_Ok_inv in H as (l3 & E3 & H).
  apply bind_Ok_inv in H as (ind & [_ ->]%getitem_inv & H).
  apply bind_Ok_inv in H as (c1 & [Hm3 ->]%getitem_inv & H).
  apply bind_Ok_inv in H as (c2 & [Hm4 ->]%getitem_inv & H).
  apply bind_Ok_inv in H as (l4 & E4 & _).
  rewrite <- !list_fmap_compose in E1.
  rewrite <- (list_fmap_compose Merged._merge) in E2.
  rewrite <- (list_fmap_compose Merged.tracking_number) in E2.
  rewrite <- !list_fmap_compose in E4.
  rewrite (zip_with_fmap_same andb) in E2.
  rewrite (zip_with_fmap_same pd.ne) in E4.
  rewrite (loc_rows_fmap (pd.loc m _)) in E4. rewrite loc_rows_fmap in E4.
  pose proof (for_each_elem_Ok _ _ _ E1) as F1.
  pose proof (for_each_elem_Ok _ _ _ E2) as F2.
  pose proof (for_each_elem_Ok _ _ _ E3) as F3.
  pose proof (for_each_elem_Ok _ _ _ E4) as F4.
  clear E1 E2 E3 E4.
  split; [repeat constructor; done|]. split; [done|]. split; [|split; [|split]].
  - intros r Hr Hs. destruct (F1 r) as [y Hy].
    { apply elem_of_loc. split; [by apply bool_decide_eq_true|done]. }
    apply bind_Ok_inv in Hy as (? & _ & Hy).
    apply bind_Ok_inv in Hy as (? & [? _]%row_getitem_label & Hy).
    apply bind_Ok_inv in Hy as (? & [? _]%row_getitem_label & Hy).
    repeat constructor; done.
  - intros r Hr Hs. destruct (F2 r) as [y Hy].
    { apply elem_of_loc. split; [by apply unmatched_order_mask|done]. }
    apply bind_Ok_inv in Hy as (? & [? _]%row_getitem_label & Hy).
    apply bind_Ok_inv in Hy as (? & _ & Hy).
    apply bind_Ok_inv in Hy as (? & [? _]%row_getitem_label & Hy).
    repeat constructor; done.
  - intros v Hv.
    destruct (F3 (v, occurrences (Some v) (Shopify.order_number <$> rows o))) as [y Hy].
    { apply list_elem_of_filter. split; [simpl; lia|].
      apply elem_of_value_counts. split; [|done]. apply occurrences_pos. lia. }
    cbv beta iota in Hy.
    apply bind_Ok_inv in Hy as (? & _ & Hy).
    apply bind_Ok_inv in Hy as (? & [? _]%getitem_inv & Hy).
    apply bind_Ok_inv in Hy as (? & [? _]%getitem_inv & Hy).
    repeat constructor; done.
  - intros r Hr Hc. destruct (F4 r) as [y Hy].
    { apply list_elem_of_filter.
      apply country_mismatch_mask in Hc as [[_ Hne] Hb].
      split; [done|]. apply list_elem_of_filter. split; [by apply bool_decide_eq_true in Hb; apply bool_decide_eq_true|done]. }
    apply country_mismatch_mask in Hc as [[Hna _] _].
    apply andb_true_iff in Hna as [Hna1 Hna2].
    apply bind_Ok_inv in Hy as (? & [_ ->]%row_getitem_label & Hy).
    rewrite Hna1 in Hy.
    apply bind_Ok_inv in Hy as (? & [_ ->]%row_getitem_label & Hy).
    rewrite Hna2 in Hy.
    apply bind_Ok_inv in Hy as (? & [? _]%row_getitem_label & Hy).
    done.
Qed.

(** With those labels [identify_issues] returns the report of the four row
    filters. *)
Lemma identify_issues_returns m o :
  issue_labels_ok m o → identify_issues m o = Ok (report_of m o).
Proof.
  intros (Hm & Ho1 & F1 & F2 & F3 & F4). rewrite !Forall_cons in Hm.
  destruct Hm as (Hm1 & Hm2 & Hm3 & Hm4 & _).
  unfold identify_issues, report_of.
  rewrite !(getitem_Ok m "_merge") by done. cbn [mbind result_bind].
  rewrite <- !list_fmap_compose.
  rewrite (for_each_Ok _ shipment_entry).
  2:{ intros r [Hs%bool_decide_eq_true Hr]%elem_of_loc.
      specialize (F1 r Hr Hs). rewrite !Forall_cons in F1. destruct F1 as (? & ? & _).
      rewrite !row_getitem_Ok by done. done. }
  cbn [mbind result_bind].
  rewrite (loc_rows_pred m _ is_unmatched_shipment) by (intros x; apply bool_decide_eq_true).
  rewrite (getitem_Ok m "tracking_number") by done. cbn [mbind result_bind].
  rewrite <- !list_fmap_compose. rewrite (zip_with_fmap_same andb).
  rewrite (for_each_Ok _ order_entry).
  2:{ intros r [Hs%unmatched_order_mask Hr]%elem_of_loc.
      specialize (F2 r Hr Hs). rewrite !Forall_cons in F2. destruct F2 as (? & ? & _).
      rewrite !row_getitem_Ok by done. done. }
  cbn [mbind result_bind].
  rewrite (loc_rows_pred m _ is_unmatched_order) by apply unmatched_order_mask.
  rewrite (getitem_Ok o "order_number") by done. cbn [mbind result_bind].
  rewrite (for_each_Ok _ (multi_entry (rows o))).
  2:{ intros [v c] [Hc Hv]%list_elem_of_filter. simpl in Hc.
      apply elem_of_value_counts in Hv as [_ ->]. cbv beta iota.
      specialize (F3 v ltac:(lia)). rewrite !Forall_cons in F3. destruct F3 as (? & ? & _).
      rewrite <- list_fmap_compose.
      rewrite !getitem_Ok by done. cbn [mbind result_bind].
      rewrite (loc_rows_pred o _ (λ r, Shopify.order_number r = Some v))
        by (intros x; apply bool_decide_eq_true).
      fold (order_rows (rows o) v).
      rewrite <- occurrences_order_rows in Hc |- *.
      unfold multi_entry. cbn [fst snd].
      destruct (order_rows (rows o) v) as [|r0 rs'] eqn:E; [simpl in Hc; lia|].
      done. }
  cbn [mbind result_bind].
  rewrite !getitem_Ok by done. cbn [mbind result_bind].
  rewrite (zip_with_fmap_same pd.ne).
  rewrite (loc_rows_fmap (pd.loc m _)). rewrite loc_rows_fmap.
  rewrite (for_each_Ok _
    (λ r, if text_notna (Merged.country r) && text_notna (Merged.country_from_shipping r)
          then [mismatch_entry r] else [])).
  2:{ intros r [Hne [Hb Hr]%list_elem_of_filter]%list_elem_of_filter.
      rewrite !row_getitem_Ok by done. cbn [mbind result_bind].
      destruct (text_notna (Merged.country r)) eqn:E1; [|done].
      cbn [mbind result_bind andb].
      destruct (text_notna (Merged.country_from_shipping r)) eqn:E2; [|done].
      assert (is_country_mismatch r) as Hc.
      { apply country_mismatch_mask. by rewrite E1, E2. }
      specialize (F4 r Hr Hc).
      rewrite !row_getitem_Ok by done. done. }
  cbn [mbind result_bind].
  rewrite concat_fmap_if, !filter_filter_and.
  do 3 f_equal. apply list_filter_iff. intros r. apply country_mismatch_mask.
Qed.

(** A report that [identify_issues] returns is the report of the four row
    filters. *)
Lemma identify_issues_inv m o report :
  identify_issues m o = Ok report → report = report_of m o.
Proof.
  intros H. pose proof (identify_issues_returns _ _ (identify_issues_labels _ _ _ H)) as H'.
  congruence.
Qed.

Lemma run_inv s o merged_df report :
  run s o = Ok (merged_df, report) →
  ∃ shipping_df shopify_df,
    process_data s o = Ok (merged_df, shipping_df, shopify_df)
    ∧ identify_issues merged_df shopify_df = Ok report.
Proof.
  unfold run. intros H.
  apply bind_Ok_inv in H as ([[m s'] o'] & E & H).
  apply bind_Ok_inv in H as (rep & Ei & H). injection H as <- <-. eauto.
Qed.

Lemma issue_labels_without_countries sel m o :
  issue_labels_ok m o → issue_labels_ok (without_countries sel m) o.
Proof.
  intros (Hm & Ho1 & F1 & F2 & F3 & F4).
  split; [exact Hm|]. split; [done|]. split; [|split; [|split; [done|]]].
  - intros r' (r & -> & Hr)%list_elem_of_fmap Hs. by apply (F1 r Hr).
  - intros r' (r & -> & Hr)%list_elem_of_fmap Hs. by apply (F2 r Hr).
  - intros r' (r & -> & Hr)%list_elem_of_fmap (Hb & c & c' & Hc & Hc' & Hne).
    apply (F4 r Hr). cbn [blank Merged.country Merged.country_from_shipping Merged._merge] in *.
    destruct (sel r).1; [done|]. destruct (sel r).2; [done|].
    split; [done|]. eauto.
Qed.

(** ** Substrings *)

Lemma prefix_app (pat s : string) :
  String.prefix pat s = true ↔ ∃ b, s = pat +:+ b.
Proof.
  revert s. induction pat as [|a pat IH]; intros s.
  - split; [by exists s|by destruct s].
  - destruct s as [|c s]; simpl; [split; [done|by intros [b [=]]]|].
    destruct (Ascii.ascii_dec a c) as [->|Hne].
    + rewrite IH. split; intros [b Hb]; exists b; [by rewrite Hb|by injection Hb].
    + split; [done|]. intros [b [= -> _]]. done.
Qed.

Lemma str_contains_app (pat s : string) :
  str_contains pat s = true ↔ ∃ a b, s = a +:+ pat +:+ b.
Proof.
  induction s as [|c s IH].
  - change (str_contains pat "") with (String.prefix pat "" || false).
    rewrite orb_false_r, prefix_app. split.
    + intros [b Hb]. by exists "", b.
    + intros (a & b & Hab). destruct a as [|? ?]; [by exists b|done].
  - change (str_contains pat (String c s))
      with (String.prefix pat (String c s) || str_contains pat s).
    rewrite orb_true_iff, prefix_app, IH. split.
    + intros [[b Hb]|(a & b & Hab)]; [by exists "", b|].
      exists (String c a), b. simpl. by rewrite Hab.
    + intros (a & b & Hab). destruct a as [|c' a]; [left; by exists b|right].
      simpl in Hab. injection Hab as -> ->. by exists a, b.
Qed.

(** ** The issue report *)

(** C6. The unmatched orders of a report that [identify_issues] returns are,
    in the order of the merged frame, the lines tagged [left_only] whose
    tracking key is a string in which "4PX" occurs; a [left_only] line with
    another key, such as "DHL999", or with no key, stays in the merged frame
    and is not reported. *)
Theorem unmatched_orders_exact m o report :
  identify_issues m o = Ok report →
  unmatched_orders report = order_entry <$> filter is_unmatched_order (rows m)
  ∧ (∀ s, str_contains "4PX" s = true ↔ ∃ a b, s = a +:+ "4PX" +:+ b)
  ∧ (∀ r, r ∈ rows m → Merged._merge r = left_only →
       (∀ s, Merged.tracking_number r = Some s → str_contains "4PX" s = false) →
       r ∉ filter is_unmatched_order (rows m))
  ∧ str_contains "4PX" "4PX12345" = true
  ∧ str_contains "4PX" "DHL999" = false.
Proof.
  intros ->%identify_issues_inv. unfold report_of. cbn [unmatched_orders].
  split; [done|]. split; [intros s; apply str_contains_app|]. split; [|done].
  intros r _ _ Hno [(_ & s & Hs & Hc) _]%list_elem_of_filter.
  rewrite (Hno s Hs) in Hc. done.
Qed.

Lemma unmatched_orders_exact_witness :
  ∃ report, identify_issues sample_merged sample_orders = Ok report
    ∧ unmatched_orders report
      = [UnmatchedOrder.mk (Some "O2") (Some "4PX12345") (Fin 30) (Some "Canada")].
Proof.
  destruct (identify_issues sample_merged sample_orders) as [report|e] eqn:E;
    [|by vm_compute in E].
  exists report. split; [done|].
  destruct (unmatched_orders_exact _ _ _ E) as (-> & _). by vm_compute.
Defined.

(** C5. The country mismatches of a report that [identify_issues] returns
    are, in the order of the merged frame, the lines tagged [both] whose two
    countries are both present and differ; a line on which either country is
    missing is never reported. Nor does a missing country make the detector
    raise: on a merged frame on which it returns, it still returns after
    either country of any of the lines is replaced by the missing value. *)
Theorem country_mismatch_exact m o report :
  identify_issues m o = Ok report →
  country_mismatch report = mismatch_entry <$> filter is_country_mismatch (rows m)
  ∧ (∀ r, r ∈ rows m →
       Merged.country r = None ∨ Merged.country_from_shipping r = None →
       r ∉ filter is_country_mismatch (rows m))
  ∧ (∀ sel, ∃ report', identify_issues (without_countries sel m) o = Ok report').
Proof.
  intros H. pose proof (identify_issues_inv _ _ _ H) as ->. cbn [country_mismatch report_of].
  split; [done|]. split.
  - intros r _ Hnull [(_ & c & c' & Hc & Hc' & _) _]%list_elem_of_filter.
    destruct Hnull; congruence.
  - intros sel. eexists. apply identify_issues_returns, issue_labels_without_countries.
    by eapply identify_issues_labels.
Qed.

Lemma country_mismatch_exact_witness :
  ∃ report, identify_issues mismatch_merged mismatch_orders = Ok report
    ∧ country_mismatch report
      = [CountryMismatch.mk (Some "O1") (Some "T1") (Some "Canada") (Some "United States")]
    ∧ length (filter (λ r, Merged._merge r = both) (rows mismatch_merged)) = 4
    ∧ ∃ report', identify_issues (without_countries (λ _, (true, false)) mismatch_merged)
                   mismatch_orders = Ok report'.
Proof.
  destruct (identify_issues mismatch_merged mismatch_orders) as [report|e] eqn:E;
    [|by vm_compute in E].
  exists report. split; [done|].
  destruct (country_mismatch_exact _ _ _ E) as (-> & _ & Hblank).
  split; [by vm_compute|]. split; [by vm_compute|]. apply Hblank.
Defined.

Lemma multi_entry_fields os (oc : string * nat) :
  MultiTracking.order (multi_entry os oc) = oc.1
  ∧ MultiTracking.count (multi_entry os oc) = oc.2
  ∧ MultiTracking.trackings (multi_entry os oc)
    = Shopify.tracking_number <$> order_rows os oc.1.
Proof. done. Qed.

(** C4, as the code has it. In a report that [identify_issues] returns, an
    order number has an entry exactly when at least two lines of the order
    export carry it, and then exactly one. The entry holds the number of
    those lines, the payout of the first of them, and the tracking key of
    every one of them in source order: a key that two lines share is listed
    twice, and a missing key is listed too. *)
Theorem multi_tracking_report m o report :
  identify_issues m o = Ok report →
  (∀ v : string,
     (∃ e, e ∈ multi_tracking report ∧ MultiTracking.order e = v)
     ↔ (2 ≤ occurrences (Some v) (Shopify.order_number <$> rows o))%nat)
  ∧ NoDup (MultiTracking.order <$> multi_tracking report)
  ∧ (∀ e, e ∈ multi_tracking report →
       MultiTracking.count e
       = occurrences (Some (MultiTracking.order e)) (Shopify.order_number <$> rows o)
       ∧ MultiTracking.trackings e
         = Shopify.tracking_number <$> order_rows (rows o) (MultiTracking.order e)
       ∧ length (MultiTracking.trackings e) = MultiTracking.count e
       ∧ ∃ r0 rest, order_rows (rows o) (MultiTracking.order e) = r0 :: rest
           ∧ MultiTracking.net_payout e = Shopify.net_payout r0).
Proof.
  intros ->%identify_issues_inv. unfold report_of. cbn [multi_tracking].
  set (counts := pd.value_counts (Shopify.order_number <$> rows o)).
  split; [|split].
  - intros v. rewrite <- (occurrences_order_rows (rows o) v). split.
    + intros (e & ([v' c] & -> & [Hc Hin]%list_elem_of_filter)%list_elem_of_fmap & <-).
      apply elem_of_value_counts in Hin as [_ ->]. simpl in *.
      rewrite occurrences_order_rows. lia.
    + intros Hc. rewrite occurrences_order_rows in Hc.
      exists (multi_entry (rows o) (v, occurrences (Some v) (Shopify.order_number <$> rows o))).
      split; [|done]. apply list_elem_of_fmap_2, list_elem_of_filter. split; [simpl; lia|].
      apply elem_of_value_counts. split; [|done]. apply occurrences_pos. lia.
  - rewrite <- list_fmap_compose.
    apply (sublist_NoDup _ (counts.*1)); [apply NoDup_value_counts|].
    apply fmap_sublist, sublist_filter.
  - intros e ([v c] & -> & [Hc Hin]%list_elem_of_filter)%list_elem_of_fmap.
    apply elem_of_value_counts in Hin as [_ ->]. simpl in Hc.
    cbn [multi_entry MultiTracking.order MultiTracking.count MultiTracking.trackings
         MultiTracking.net_payout fst snd].
    split; [done|]. split; [done|]. split.
    + by rewrite length_fmap, occurrences_order_rows.
    + rewrite <- occurrences_order_rows in Hc.
      destruct (order_rows (rows o) v) as [|r0 rest]; [simpl in Hc; lia|].
      by exists r0, rest.
Qed.

Lemma multi_tracking_report_witness :
  ∃ report, identify_issues sample_merged sample_orders = Ok report
    ∧ ∃ e, e ∈ multi_tracking report ∧ MultiTracking.order e = "O2".
Proof.
  destruct (identify_issues sample_merged sample_orders) as [report|e] eqn:E;
    [|by vm_compute in E].
  exists report. split; [done|].
  destruct (multi_tracking_report _ _ _ E) as (Hiff & _).
  apply Hiff. by vm_compute.
Defined.

(** C4, as stated, fails on the tracking list: two lines of one order that
    share a tracking key put that key twice in the list. *)
Lemma shared_tracking_listed_twice :
  ¬ trackings_are_distinct parcel_shipping parcel_shopify.
Proof.
  intros H.
  destruct (run parcel_shipping parcel_shopify) as [[merged_df report]|e] eqn:E;
    [|by vm_compute in E].
  specialize (H _ _ E). vm_compute in E. injection E as _ <-.
  specialize (H _ (list_elem_of_here _ _)). simpl in H.
  apply NoDup_cons in H as [Hin _]. apply Hin. left.
Qed.

(** ** The label of the indicator *)

Lemma merge_label_merged oc : "_merge" ∈ pd.merged_columns oc ledger_selection "tracking_number".
Proof. apply elem_of_merged_columns. by right; right. Qed.

(** * Further properties of the join *)

(** The index pairs of the join, by shape. *)
Lemma elem_of_full_outer_join (lk rk : list text) (p : option nat * option nat) :
  p ∈ pd.full_outer_join lk rk ↔
    ∃ k, match p with
         | (Some i, None) => lk !! i = Some k ∧ k ∉ rk
         | (None, Some j) => rk !! j = Some k ∧ k ∉ lk
         | (Some i, Some j) => lk !! i = Some k ∧ rk !! j = Some k
         | (None, None) => False
         end.
Proof.
  unfold pd.full_outer_join. rewrite list_elem_of_bind.
  setoid_rewrite elem_of_join_group. setoid_rewrite elem_of_join_groups.
  split.
  - intros (k & Hp & _). by exists k.
  - intros (k & Hp). exists k. split; [done|]. rewrite elem_of_app.
    destruct p as [[i|] [j|]]; try done.
    + left. destruct Hp. by eapply list_elem_of_lookup_2.
    + left. destruct Hp. by eapply list_elem_of_lookup_2.
    + right. destruct Hp. by eapply list_elem_of_lookup_2.
Qed.

(** The tag and the key of the joined line of an index pair of the join. *)
Lemma joined_row_tag_key ls rs p :
  p ∈ pd.full_outer_join (Shopify.tracking_number <$> ls) (Shipping.tracking_number <$> rs) →
  let r := joined_row ls rs p in
  let k := Merged.tracking_number r in
  match Merged._merge r with
  | both => k ∈ (Shopify.tracking_number <$> ls) ∧ k ∈ (Shipping.tracking_number <$> rs)
  | left_only => k ∈ (Shopify.tracking_number <$> ls) ∧ k ∉ (Shipping.tracking_number <$> rs)
  | right_only => k ∉ (Shopify.tracking_number <$> ls) ∧ k ∈ (Shipping.tracking_number <$> rs)
  end.
Proof.
  intros (k & Hp)%elem_of_full_outer_join. cbn zeta. unfold joined_row.
  cbn [fst snd mbind option_bind].
  destruct p as [[i|] [j|]]; try done; cbn [fst snd mbind option_bind].
  - destruct Hp as [Hi Hj].
    pose proof Hi as (x & Hx & Hx')%list_lookup_fmap_Some.
    pose proof Hj as (y & Hy & Hy')%list_lookup_fmap_Some.
    rewrite Hx', Hy'. simpl. rewrite <- Hx. split; by eapply list_elem_of_lookup_2.
  - destruct Hp as [Hi Hn].
    pose proof Hi as (x & Hx & Hx')%list_lookup_fmap_Some.
    rewrite Hx'. simpl. rewrite <- Hx. split; [by eapply list_elem_of_lookup_2|done].
  - destruct Hp as [Hj Hn].
    pose proof Hj as (y & Hy & Hy')%list_lookup_fmap_Some.
    rewrite Hy'. simpl. rewrite <- Hy. split; [done|by eapply list_elem_of_lookup_2].
Qed.

Lemma joined_row_key_left ls rs (i : nat) (j : option nat) x :
  ls !! i = Some x →
  Merged.tracking_number (joined_row ls rs (Some i, j)) = Shopify.tracking_number x.
Proof. intros Hx. unfold joined_row. cbn [fst snd mbind option_bind]. by rewrite Hx. Qed.

Lemma merged_row_tag_key ls rs r :
  r ∈ joined_row ls rs
      <$> pd.full_outer_join (Shopify.tracking_number <$> ls) (Shipping.tracking_number <$> rs) →
  let k := Merged.tracking_number r in
  match Merged._merge r with
  | both => k ∈ (Shopify.tracking_number <$> ls) ∧ k ∈ (Shipping.tracking_number <$> rs)
  | left_only => k ∈ (Shopify.tracking_number <$> ls) ∧ k ∉ (Shipping.tracking_number <$> rs)
  | right_only => k ∉ (Shopify.tracking_number <$> ls) ∧ k ∈ (Shipping.tracking_number <$> rs)
  end.
Proof. intros (p & -> & Hp)%list_elem_of_fmap. by apply joined_row_tag_key. Qed.

(** X1. Every joined line of the merged frame is tagged by where its key
    occurs: [both] when lines of both processed frames carry it, [left_only]
    when only order lines do, [right_only] when only ledger lines do. *)
Theorem match_status_by_key s o merged_df shipping_df shopify_df :
  process_data s o = Ok (merged_df, shipping_df, shopify_df) →
  ∀ r, r ∈ rows merged_df →
    let k := Merged.tracking_number r in
    match Merged._merge r with
    | both => k ∈ order_keys shopify_df ∧ k ∈ shipment_keys shipping_df
    | left_only => k ∈ order_keys shopify_df ∧ k ∉ shipment_keys shipping_df
    | right_only => k ∉ order_keys shopify_df ∧ k ∈ shipment_keys shipping_df
    end.
Proof.
  intros H r Hr. pose proof (process_data_rows _ _ _ _ _ H) as (Hrows & _ & _).
  rewrite Hrows in Hr. apply list_elem_of_fmap in Hr as (p & -> & Hp).
  by apply joined_row_tag_key.
Qed.

Lemma match_status_by_key_witness :
  ∃ merged_df shipping_df shopify_df,
    process_data sample_shipping sample_shopify = Ok (merged_df, shipping_df, shopify_df)
    ∧ ∀ r, r ∈ rows merged_df → Merged._merge r = both →
        Merged.tracking_number r ∈ shipment_keys shipping_df.
Proof.
  destruct (process_data sample_shipping sample_shopify)
    as [[[merged_df shipping_df] shopify_df]|e] eqn:E; [|by vm_compute in E].
  exists merged_df, shipping_df, shopify_df. split; [done|].
  intros r Hr Hb. pose proof (match_status_by_key _ _ _ _ _ E r Hr) as Hk.
  cbn zeta in Hk. rewrite Hb in Hk. tauto.
Defined.

(** X2. The merged frame carries exactly the keys of the two processed
    frames: no key is lost by the join and none is invented. *)
Theorem joined_keys_union s o merged_df shipping_df shopify_df :
  process_data s o = Ok (merged_df, shipping_df, shopify_df) →
  ∀ k, k ∈ joined_keys merged_df ↔
         k ∈ order_keys shopify_df ∨ k ∈ shipment_keys shipping_df.
Proof.
  intros H k. pose proof (process_data_rows _ _ _ _ _ H) as (Hrows & _ & _).
  unfold joined_keys. rewrite list_elem_of_fmap. split.
  - intros (r & -> & Hr). rewrite Hrows in Hr. apply merged_row_tag_key in Hr.
    cbn zeta in Hr. unfold order_keys, shipment_keys. destruct (Merged._merge r); tauto.
  - rewrite Hrows. intros [Hk|Hk].
    + apply list_elem_of_lookup in Hk as [i Hi].
      pose proof Hi as (x & -> & Hx)%list_lookup_fmap_Some.
      destruct (elem_of_full_outer_join_left (order_keys shopify_df)
                  (shipment_keys shipping_df) i) as ([p1 p2] & Hp & Hp1).
      { by eapply lookup_lt_Some. }
      simpl in Hp1. subst p1. eexists. split; [|by apply list_elem_of_fmap_2].
      by rewrite (joined_row_key_left _ _ _ _ _ Hx).
    + apply list_elem_of_lookup in Hk as [j Hj].
      destruct (elem_of_full_outer_join_right (order_keys shopify_df)
                  (shipment_keys shipping_df) j) as ([p1 p2] & Hp & Hp2).
      { by eapply lookup_lt_Some. }
      simpl in Hp2. subst p2. eexists. split; [|by apply list_elem_of_fmap_2].
      pose proof Hp as (k' & Hk')%elem_of_full_outer_join.
      destruct p1 as [i|].
      * destruct Hk' as [Hi Hj'].
        pose proof Hi as (x & Hx' & Hx)%list_lookup_fmap_Some.
        rewrite (joined_row_key_left _ _ _ _ _ Hx). unfold shipment_keys in Hj, Hj'. congruence.
      * destruct Hk' as [Hj' _]. unfold shipment_keys in Hj, Hj'.
        pose proof Hj' as (y & Hy' & Hy)%list_lookup_fmap_Some.
        unfold joined_row. cbn [fst snd mbind option_bind]. rewrite Hy. simpl. congruence.
Qed.

Lemma joined_keys_union_witness :
  ∃ merged_df shipping_df shopify_df,
    process_data sample_shipping sample_shopify = Ok (merged_df, shipping_df, shopify_df)
    ∧ Some "DHL999" ∈ joined_keys merged_df.
Proof.
  destruct (process_data sample_shipping sample_shopify)
    as [[[merged_df shipping_df] shopify_df]|e] eqn:E; [|by vm_compute in E].
  exists merged_df, shipping_df, shopify_df. split; [done|].
  apply (joined_keys_union _ _ _ _ _ E). left.
  apply process_data_inv in E as (_ & _ & ->). label_in.
Defined.

Lemma length_covers (n : nat) (l : list nat) :
  (∀ i, i < n → i ∈ l) → (n ≤ length l)%nat.
Proof.
  intros H. rewrite <- (length_seq n 0) at 1. apply submseteq_length, NoDup_submseteq.
  - apply NoDup_seq.
  - intros i Hi%elem_of_seq. apply H. lia.
Qed.

Lemma length_omap_le {A B} (f : A → option B) (l : list A) :
  (length (omap f l) ≤ length l)%nat.
Proof. induction l as [|x l IH]; csimpl; [done|]. destruct (f x); simpl; lia. Qed.

(** X3. The merged frame has at least as many lines as the order export and
    at least as many as the ledger. *)
Theorem merged_frame_covers_inputs s o merged_df shipping_df shopify_df :
  process_data s o = Ok (merged_df, shipping_df, shopify_df) →
  (length (rows o) ≤ length (rows merged_df))%nat
  ∧ (length (rows s) ≤ length (rows merged_df))%nat.
Proof.
  intros H. pose proof (process_data_rows _ _ _ _ _ H) as (Hrows & Hs & Ho).
  rewrite Hrows, length_fmap. unfold order_keys, shipment_keys.
  set (idx := pd.full_outer_join _ _). split.
  - rewrite <- Ho. etrans; [apply (length_covers _ (omap fst idx))|].
    + intros i Hi.
      destruct (elem_of_full_outer_join_left (Shopify.tracking_number <$> rows shopify_df)
                  (Shipping.tracking_number <$> rows shipping_df) i) as (p & Hp & Hp1).
      { by rewrite length_fmap. }
      apply list_elem_of_omap. by exists p.
    + apply length_omap_le.
  - replace (length (rows s)) with (length (rows shipping_df)) by (by rewrite Hs, length_fmap).
    etrans; [apply (length_covers _ (omap snd idx))|].
    + intros j Hj.
      destruct (elem_of_full_outer_join_right (Shopify.tracking_number <$> rows shopify_df)
                  (Shipping.tracking_number <$> rows shipping_df) j) as (p & Hp & Hp2).
      { by rewrite length_fmap. }
      apply list_elem_of_omap. by exists p.
    + apply length_omap_le.
Qed.

Lemma merged_frame_covers_inputs_witness :
  ∃ merged_df shipping_df shopify_df,
    process_data repeated_shipping repeated_shopify = Ok (merged_df, shipping_df, shopify_df)
    ∧ (4 ≤ length (rows merged_df))%nat.
Proof.
  destruct (process_data repeated_shipping repeated_shopify)
    as [[[merged_df shipping_df] shopify_df]|e] eqn:E; [|by vm_compute in E].
  exists merged_df, shipping_df, shopify_df. split; [done|].
  exact (proj2 (merged_frame_covers_inputs _ _ _ _ _ E)).
Defined.

(** * Further properties of the derived metrics *)

Lemma fdiv_NaN_l b : fdiv NaN b = NaN.
Proof. by destruct b. Qed.
Lemma fdiv_NaN_r a : fdiv a NaN = NaN.
Proof. by destruct a. Qed.
Lemma fsub_NaN_l b : fsub NaN b = NaN.
Proof. by destruct b. Qed.
Lemma fsub_NaN_r a : fsub a NaN = NaN.
Proof. by destruct a. Qed.

(** X4. On a joined line that is not tagged [both] the shipping percentage
    and the profit are both missing, and the profit is missing as soon as
    the payout, the product cost or the shipping cost is. *)
Theorem derived_metrics_defined_on_matched s o merged_df shipping_df shopify_df :
  process_data s o = Ok (merged_df, shipping_df, shopify_df) →
  ∀ r, r ∈ rows merged_df →
    (Merged._merge r ≠ both → Merged.shipping_pct r = NaN ∧ Merged.profit r = NaN)
    ∧ (Merged.net_payout r = NaN ∨ Merged.product_cost r = NaN
       ∨ Merged.shipping_cost_usd r = NaN → Merged.profit r = NaN).
Proof.
  intros H r Hr. pose proof (process_data_rows _ _ _ _ _ H) as (Hrows & _ & _).
  rewrite Hrows in Hr. apply list_elem_of_fmap in Hr as (p & -> & _).
  unfold joined_row.
  generalize (p.1 ≫= (rows shopify_df !!.)) (p.2 ≫= (rows shipping_df !!.)).
  intros l r'. set (r0 := pd.merge_row l r').
  destruct (derive_fields r0) as (Hpct & Hprofit & Hc & Hp & Hpc).
  rewrite Hpct, Hprofit, Hc, Hp, Hpc. split.
  - unfold r0. rewrite merge_row_indicator.
    destruct l as [x|], r' as [y|]; cbn [pd.merge_row from_option
      Merged.shipping_cost_usd Merged.net_payout Merged.product_cost];
      intros Hn; try done;
      by rewrite ?fdiv_NaN_l, ?fdiv_NaN_r, ?fsub_NaN_l, ?fsub_NaN_r.
  - intros [-> | [-> | ->]].
    + by rewrite !fsub_NaN_l.
    + by rewrite fsub_NaN_r, fsub_NaN_l.
    + by rewrite fsub_NaN_r.
Qed.

Lemma derived_metrics_defined_on_matched_witness :
  ∃ merged_df shipping_df shopify_df,
    process_data sample_shipping sample_shopify = Ok (merged_df, shipping_df, shopify_df)
    ∧ ∀ r, r ∈ rows merged_df → Merged._merge r ≠ both → Merged.profit r = NaN.
Proof.
  destruct (process_data sample_shipping sample_shopify)
    as [[[merged_df shipping_df] shopify_df]|e] eqn:E; [|by vm_compute in E].
  exists merged_df, shipping_df, shopify_df. split; [done|].
  intros r Hr Hn.
  destruct (derived_metrics_defined_on_matched _ _ _ _ _ E r Hr) as (Hunmatched & _).
  by apply Hunmatched.
Defined.

(** * Further properties of the country dictionary *)

Lemma country_values_not_keys :
  map_Forall (λ _ english, COUNTRY_MAP !! english = None) COUNTRY_MAP.
Proof. apply (bool_decide_unpack _). by vm_compute. Qed.

Lemma country_values_distinct :
  map_Forall (λ label english,
    map_Forall (λ label' english', english = english' → label = label') COUNTRY_MAP)
    COUNTRY_MAP.
Proof. apply (bool_decide_unpack _). by vm_compute. Qed.

Lemma translate_country_Some (label : string) :
  translate_country (Some label) = Some (default label (COUNTRY_MAP !! label)).
Proof.
  change (translate_country (Some label))
    with (from_option Some (Some label) (COUNTRY_MAP !! label)).
  by destruct (COUNTRY_MAP !! label).
Qed.

(** X6. Translating a label twice is translating it once: no English name
    of the dictionary is itself one of its keys. *)
Theorem translate_country_idempotent (label : text) :
  translate_country (translate_country label) = translate_country label.
Proof.
  destruct label as [label|]; [|done].
  rewrite translate_country_Some.
  destruct (COUNTRY_MAP !! label) as [english|] eqn:E; simpl.
  - apply translate_country_miss. by apply (country_values_not_keys label english).
  - by apply translate_country_miss.
Qed.

(** X7. Two different labels of the dictionary are never translated to the
    same country. *)
Theorem translate_country_injective_on_keys (label label' : string) :
  is_Some (COUNTRY_MAP !! label) → is_Some (COUNTRY_MAP !! label') →
  translate_country (Some label) = translate_country (Some label') →
  label = label'.
Proof.
  intros [english E] [english' E']. rewrite !translate_country_Some, E, E'. simpl.
  intros [= <-]. by apply (country_values_distinct label english E label' english E').
Qed.

Lemma translate_country_injective_on_keys_witness : "美国" = "美国".
Proof.
  apply translate_country_injective_on_keys;
    [apply (bool_decide_unpack _); by vm_compute..|reflexivity].
Defined.

(** * The issue count *)

Lemma length_filter_zero {A} (P : A → Prop) `{∀ x, Decision (P x)} (l : list A) :
  length (filter P l) = 0 ↔ ∀ x, x ∈ l → ¬ P x.
Proof.
  rewrite length_zero_iff_nil. split.
  - intros Hnil x Hx HP. by eapply filter_nil_not_elem_of.
  - intros Hall. by apply filter_none, Forall_forall.
Qed.

(** X8. The issue count of the Issues tab, on a report that
    [identify_issues] returns, is the number of lines tagged [right_only],
    plus the number of lines tagged [left_only] with a 4PX key, plus the
    number of order numbers on two lines or more, plus the number of country
    mismatches. It is zero exactly when there is no such line and no such
    order number: an order line tagged [left_only] whose key has no "4PX"
    does not count. *)
Theorem total_issues_zero m o report :
  identify_issues m o = Ok report →
  total_issues report
  = (length (filter is_unmatched_shipment (rows m))
     + length (filter is_unmatched_order (rows m))
     + length (filter (λ oc, 1 < oc.2)
                 (pd.value_counts (Shopify.order_number <$> rows o)))
     + length (filter is_country_mismatch (rows m)))%nat
  ∧ (total_issues report = 0 ↔
       (∀ r, r ∈ rows m →
          ¬ is_unmatched_shipment r ∧ ¬ is_unmatched_order r ∧ ¬ is_country_mismatch r)
       ∧ ∀ v : string, (occurrences (Some v) (Shopify.order_number <$> rows o) ≤ 1)%nat).
Proof.
  intros ->%identify_issues_inv. unfold report_of.
  unfold total_issues.
  cbn [unmatched_shipments unmatched_orders multi_tracking country_mismatch].
  rewrite !length_fmap. split; [done|].
  set (counts := pd.value_counts _).
  assert (length (filter (λ oc, 1 < oc.2) counts) = 0
          ↔ ∀ v : string, (occurrences (Some v) (Shopify.order_number <$> rows o) ≤ 1)%nat)
    as Hmulti.
  { rewrite length_filter_zero. split.
    - intros Hall v.
      destruct (decide (1 < occurrences (Some v) (Shopify.order_number <$> rows o)))
        as [Hc|]; [|lia].
      exfalso. apply (Hall (v, occurrences (Some v) (Shopify.order_number <$> rows o))); [|done].
      apply elem_of_value_counts. split; [|done]. apply occurrences_pos. lia.
    - intros Hall [v c] [_ ->]%elem_of_value_counts. simpl. specialize (Hall v). lia. }
  pose proof (length_filter_zero is_unmatched_shipment (rows m)) as H1.
  pose proof (length_filter_zero is_unmatched_order (rows m)) as H2.
  pose proof (length_filter_zero is_country_mismatch (rows m)) as H3.
  split.
  - intros Hz. split.
    + intros r Hr. split; [apply H1; [lia|done]|]. split; [apply H2; [lia|done]|].
      apply H3; [lia|done].
    + apply Hmulti. lia.
  - intros [Hrows Hv].
    assert (length (filter is_unmatched_shipment (rows m)) = 0) by (apply H1; naive_solver).
    assert (length (filter is_unmatched_order (rows m)) = 0) by (apply H2; naive_solver).
    assert (length (filter is_country_mismatch (rows m)) = 0) by (apply H3; naive_solver).
    apply Hmulti in Hv. lia.
Qed.

Lemma total_issues_zero_witness :
  ∃ report, identify_issues sample_merged sample_orders = Ok report
    ∧ total_issues report = 3.
Proof.
  destruct (identify_issues sample_merged sample_orders) as [report|e] eqn:E;
    [|by vm_compute in E].
  exists report. split; [done|].
  destruct (total_issues_zero _ _ _ E) as (-> & _). by vm_compute.
Defined.

(** * Exceptions of the issue classifier *)

(** X9. [identify_issues] raises [KeyError] on the first label it does not
    find: on a merged frame without the indicator column it raises at once,
    and, with the merged frame complete, on an order frame without its order
    number it raises when it counts the order numbers. *)
Theorem identify_issues_missing_column m o :
  ("_merge" ∉ columns m → identify_issues m o = Raise (KeyError ["_merge"]))
  ∧ (Forall (λ c, c ∈ columns m) merged_needed → "order_number" ∉ columns o →
       identify_issues m o = Raise (KeyError ["order_number"])).
Proof.
  split.
  - intros Hn. unfold identify_issues. by rewrite getitem_Raise.
  - intros Hm Hn. unfold merged_needed in Hm. rewrite !Forall_cons in Hm.
    destruct Hm as (Hm1 & Hm2 & Hm3 & Hm4 & Hm5 & Hm6 & Hm7 & Hm8 & _).
    unfold identify_issues.
    rewrite !(getitem_Ok m "_merge") by done. cbn [mbind result_bind].
    rewrite (for_each_Ok _ shipment_entry).
    2:{ intros r _. rewrite !row_getitem_Ok by done. done. }
    cbn [mbind result_bind].
    rewrite (getitem_Ok m "tracking_number") by done. cbn [mbind result_bind].
    rewrite (for_each_Ok _ order_entry).
    2:{ intros r _. rewrite !row_getitem_Ok by done. done. }
    cbn [mbind result_bind].
    by rewrite (getitem_Raise o "order_number").
Qed.

Lemma identify_issues_missing_column_witness :
  identify_issues sample_merged (mkDataFrame ["tracking_number"; "net_payout"] (rows sample_orders))
  = Raise (KeyError ["order_number"]).
Proof.
  apply identify_issues_missing_column.
  - apply (bool_decide_unpack _). by vm_compute.
  - label_notin.
Defined.

(** * The order of the multi-tracking entries *)

#[global] Instance count_ge_trans : Transitive count_ge.
Proof. unfold count_ge. intros a b c. lia. Qed.

#[global] Instance count_ge_total : Total count_ge.
Proof. unfold count_ge. intros a b. lia. Qed.




(** * Each pairing once *)

Lemma join_group_disjoint (lk rk : list text) k1 k2 p :
  p ∈ pd.join_group lk rk k1 → p ∈ pd.join_group lk rk k2 → k1 = k2.
Proof.
  rewrite !elem_of_join_group. destruct p as [[i|] [j|]]; try done.
  - intros [H1 _] [H2 _]. congruence.
  - intros [H1 _] [H2 _]. congruence.
  - intros [H1 _] [H2 _]. congruence.
Qed.

Lemma NoDup_join_group (lk rk : list text) k : NoDup (pd.join_group lk rk k).
Proof.
  destruct (join_group_cases lk rk k) as [(_ & ->)|[(_ & _ & ->)|(_ & _ & ->)]].
  - apply NoDup_fmap_2_strong; [|apply NoDup_positions]. by intros i i' _ _ [= ->].
  - apply NoDup_fmap_2_strong; [|apply NoDup_positions]. by intros j j' _ _ [= ->].
  - apply NoDup_bind; [| |apply NoDup_positions].
    + intros i i' p _ _ (j & -> & _)%list_elem_of_fmap (j' & [= -> _] & _)%list_elem_of_fmap.
      done.
    + intros i _. apply NoDup_fmap_2_strong; [|apply NoDup_positions].
      by intros j j' _ _ [= ->].
Qed.

Lemma NoDup_full_outer_join (lk rk : list text) : NoDup (pd.full_outer_join lk rk).
Proof.
  unfold pd.full_outer_join. apply NoDup_bind.
  - intros k1 k2 p _ _. apply join_group_disjoint.
  - intros k _. apply NoDup_join_group.
  - apply NoDup_join_groups.
Qed.

(** X13. The join emits every pairing exactly once: the list of index pairs
    behind the merged frame has no repetition, and it holds the pair of
    every order line and ledger line that carry the same key. *)
Theorem every_pairing_once s o merged_df shipping_df shopify_df :
  process_data s o = Ok (merged_df, shipping_df, shopify_df) →
  let idx := pd.full_outer_join (order_keys shopify_df) (shipment_keys shipping_df) in
  rows merged_df = joined_row (rows shopify_df) (rows shipping_df) <$> idx
  ∧ NoDup idx
  ∧ ∀ i j x y, rows shopify_df !! i = Some x → rows shipping_df !! j = Some y →
      Shopify.tracking_number x = Shipping.tracking_number y →
      (Some i, Some j) ∈ idx.
Proof.
  intros H. pose proof (process_data_rows _ _ _ _ _ H) as (Hrows & _ & _).
  cbn zeta. split; [done|]. split; [apply NoDup_full_outer_join|].
  intros i j x y Hx Hy Hk. apply elem_of_full_outer_join.
  exists (Shopify.tracking_number x). unfold order_keys, shipment_keys.
  rewrite !list_lookup_fmap, Hx, Hy. simpl. by rewrite Hk.
Qed.

Lemma every_pairing_once_witness :
  ∃ merged_df shipping_df shopify_df,
    process_data repeated_shipping repeated_shopify = Ok (merged_df, shipping_df, shopify_df)
    ∧ (Some 2, Some 3)
      ∈ pd.full_outer_join (order_keys shopify_df) (shipment_keys shipping_df).
Proof.
  destruct (process_data repeated_shipping repeated_shopify)
    as [[[merged_df shipping_df] shopify_df]|e] eqn:E; [|by vm_compute in E].
  exists merged_df, shipping_df, shopify_df. split; [done|].
  destruct (every_pairing_once _ _ _ _ _ E) as (_ & _ & Hpair).
  pose proof (process_data_inv _ _ _ _ _ E) as (_ & -> & ->).
  by eapply Hpair.
Defined.

(** * The matched lines of the dashboard *)

Lemma filter_ext_in {A} (P Q : A → Prop) `{∀ x, Decision (P x)} `{∀ x, Decision (Q x)}
    (l : list A) :
  (∀ x, x ∈ l → P x ↔ Q x) → filter P l = filter Q l.
Proof.
  induction l as [|x l IH]; intros Hext; [done|]. rewrite !filter_cons.
  assert (filter P l = filter Q l) as -> by (apply IH; intros y Hy; apply Hext; by right).
  destruct (decide (P x)) as [HP|HP], (decide (Q x)) as [HQ|HQ]; try done.
  - exfalso. apply HQ, Hext; [left|done].
  - exfalso. apply HP, Hext; [left|done].
Qed.

Lemma filter_fmap {A B} (f : A → B) (P : B → Prop) `{∀ x, Decision (P x)} (l : list A) :
  filter P (f <$> l) = f <$> filter (λ x, P (f x)) l.
Proof.
  induction l as [|x l IH]; [done|]. csimpl. rewrite !filter_cons.
  case_decide; csimpl; by f_equal.
Qed.

Lemma matched_pairs ls rs :
  let idx := pd.full_outer_join (Shopify.tracking_number <$> ls)
               (Shipping.tracking_number <$> rs) in
  filter (λ r, Merged._merge r = both) (joined_row ls rs <$> idx)
  = joined_row ls rs <$> filter (λ p, is_Some p.1 ∧ is_Some p.2) idx.
Proof.
  cbn zeta. rewrite filter_fmap. f_equal. apply filter_ext_in.
  intros p (k & Hp)%elem_of_full_outer_join. unfold joined_row.
  rewrite merge_row_indicator.
  destruct p as [[i|] [j|]]; cbn [fst snd mbind option_bind]; try done.
  - destruct Hp as [(x & _ & ->)%list_lookup_fmap_Some (y & _ & ->)%list_lookup_fmap_Some].
    split; [|done]. intros _. split; by eexists.
  - destruct Hp as [(x & _ & ->)%list_lookup_fmap_Some _].
    split; [done|]. by intros [_ [? [=]]].
  - split; [done|]. by intros [[? [=]] _].
Qed.

Lemma NoDup_length_le (l : list (option nat)) (n : nat) :
  NoDup l → (∀ x, x ∈ l → ∃ i, x = Some i ∧ i < n) → (length l ≤ n)%nat.
Proof.
  intros Hnd Hin. rewrite <- (length_seq n 0), <- (length_fmap Some (seq 0 n)).
  apply submseteq_length, NoDup_submseteq; [done|].
  intros x (i & -> & Hi)%Hin. apply list_elem_of_fmap_2, elem_of_seq. lia.
Qed.

(** X14. The matched lines of the dashboard are the lines tagged [both].
    When there is one, neither processed frame is empty, so the share of
    matched orders divides by a number of order lines that is not zero; and
    when no two ledger lines carry the same key, the matched lines are at
    most as many as the order lines. *)
Theorem matched_data_against_orders s o merged_df shipping_df shopify_df :
  process_data s o = Ok (merged_df, shipping_df, shopify_df) →
  ∃ matched, matched_data merged_df = Ok matched
    ∧ rows matched = filter (λ r, Merged._merge r = both) (rows merged_df)
    ∧ (rows matched ≠ [] → rows shopify_df ≠ [] ∧ rows shipping_df ≠ [])
    ∧ (NoDup (shipment_keys shipping_df) →
       (length (rows matched) ≤ length (rows shopify_df))%nat).
Proof.
  intros H. pose proof (process_data_rows _ _ _ _ _ H) as (Hrows & _ & _).
  assert (Hm : "_merge" ∈ columns merged_df).
  { apply process_data_inv in H as (-> & _ & _). cbn [columns].
    unfold merged_labels. rewrite !elem_of_add_label. right; right. apply merge_label_merged. }
  unfold matched_data. rewrite getitem_Ok by done. cbn [mbind result_bind].
  eexists. split; [done|].
  rewrite <- list_fmap_compose.
  rewrite (loc_rows_pred merged_df _ (λ r, Merged._merge r = both))
    by (intros x; apply bool_decide_eq_true).
  split; [done|]. split.
  - intros Hne.
    destruct (filter (λ r, Merged._merge r = both) (rows merged_df)) as [|r rest] eqn:E;
      [done|].
    assert (r ∈ filter (λ r, Merged._merge r = both) (rows merged_df)) as Hr
      by (rewrite E; left).
    apply list_elem_of_filter in Hr as [Hb Hr].
    rewrite Hrows in Hr. apply merged_row_tag_key in Hr as Hk. cbn zeta in Hk.
    rewrite Hb in Hk. destruct Hk as [Hl Hr'].
    split; intros Hnil; rewrite Hnil in *; by apply elem_of_nil in Hl || apply elem_of_nil in Hr'.
  - intros Hnd. rewrite Hrows, matched_pairs, length_fmap.
    set (idx := pd.full_outer_join _ _).
    rewrite <- (length_fmap fst).
    apply NoDup_length_le.
    + apply NoDup_fmap_2_strong.
      * intros [p1 p2] [q1 q2] [[[i Hi] [j Hj]] Hp]%list_elem_of_filter
          [[_ [j' Hj']] Hq]%list_elem_of_filter Heq. simpl in *. subst.
        apply elem_of_full_outer_join in Hp as (k & Hk1 & Hk2).
        apply elem_of_full_outer_join in Hq as (k' & Hk1' & Hk2').
        assert (k = k') as <- by congruence.
        by rewrite (NoDup_lookup _ _ _ _ Hnd Hk2 Hk2').
      * apply NoDup_filter, NoDup_full_outer_join.
    + intros x ([p1 p2] & -> & [[[i Hi] _] Hp]%list_elem_of_filter)%list_elem_of_fmap.
      simpl in *. subst. exists i. split; [done|].
      apply elem_of_full_outer_join in Hp as (k & Hp).
      assert (order_keys shopify_df !! i = Some k) as Hk by (destruct p2; tauto).
      apply lookup_lt_Some in Hk. unfold order_keys in Hk. by rewrite length_fmap in Hk.
Qed.

Lemma matched_data_against_orders_witness :
  ∃ matched, matched_data sample_merged = Ok matched
    ∧ (length (rows matched) ≤ length (rows sample_orders))%nat.
Proof.
  assert (process_data sample_shipping sample_shopify
          = Ok (sample_merged, sample_ledger, sample_orders)) as E by (by vm_compute).
  destruct (matched_data_against_orders _ _ _ _ _ E) as (matched & Em & _ & _ & Hle).
  exists matched. split; [done|]. apply Hle.
  apply (bool_decide_unpack _). by vm_compute.
Defined.

(** * Lines without a counterpart *)

Lemma seq_filter_lookup_from {A B} (P : A → Prop) `{∀ x, Decision (P x)} (g : A → B)
    (h : nat → B) (l : list A) (n : nat) :
  (∀ j x, l !! j = Some x → h (n + j) = g x) →
  h <$> filter (λ j, at_index P l (j - n)) (seq n (length l)) = g <$> filter P l.
Proof.
  revert n. induction l as [|x l IH]; intros n Hh; [done|].
  cbn [length seq]. rewrite !filter_cons.
  assert (filter (λ j, at_index P (x :: l) (j - n)) (seq (S n) (length l))
          = filter (λ j, at_index P l (j - S n)) (seq (S n) (length l))) as ->.
  { apply filter_ext_in. intros j Hj%elem_of_seq. unfold at_index.
    by replace (j - n) with (S (j - S n)) by lia. }
  assert (at_index P (x :: l) (n - n) ↔ P x) as Hx.
  { unfold at_index. rewrite Nat.sub_diag. simpl. split; [by intros (? & [= <-] & ?)|eauto]. }
  assert (h <$> filter (λ j, at_index P l (j - S n)) (seq (S n) (length l))
          = g <$> filter P l) as Htail.
  { apply IH. intros j y Hy. replace (S n + j) with (n + S j) by lia. by apply Hh. }
  destruct (decide (P x)) as [HP|HP].
  - rewrite decide_True by (by apply Hx). csimpl. rewrite Htail. f_equal.
    rewrite <- (Hh 0 x eq_refl). f_equal. lia.
  - rewrite decide_False by (by rewrite Hx). done.
Qed.

Lemma seq_filter_lookup {A B} (P : A → Prop) `{∀ x, Decision (P x)} (g : A → B)
    (h : nat → B) (l : list A) :
  (∀ j x, l !! j = Some x → h j = g x) →
  h <$> filter (at_index P l) (seq 0 (length l)) = g <$> filter P l.
Proof.
  intros Hh. rewrite <- (seq_filter_lookup_from P g h l 0) by done.
  f_equal. apply filter_ext_in. intros j _. by rewrite Nat.sub_0_r.
Qed.

Lemma right_only_pairs (lk rk : list text) :
  filter (λ p, p.1 = None) (pd.full_outer_join lk rk)
  ≡ₚ (λ j, (None, Some j)) <$> filter (at_index (λ k, k ∉ lk) rk) (seq 0 (length rk)).
Proof.
  apply NoDup_Permutation.
  - apply NoDup_filter, NoDup_full_outer_join.
  - apply NoDup_fmap_2_strong; [by intros j j' _ _ [= ->]|].
    apply NoDup_filter, NoDup_seq.
  - intros p. rewrite list_elem_of_filter, elem_of_full_outer_join, list_elem_of_fmap.
    setoid_rewrite list_elem_of_filter. setoid_rewrite elem_of_seq. unfold at_index.
    split.
    + intros [Hp1 (k & Hp)]. destruct p as [[i|] [j|]]; try done.
      exists j. split; [done|]. destruct Hp as [Hj Hn]. split; [by exists k|].
      apply lookup_lt_Some in Hj. lia.
    + intros (j & -> & (k & Hj & Hn) & _). split; [done|]. by exists k.
Qed.

Lemma left_only_pairs (lk rk : list text) :
  filter (λ p, p.2 = None) (pd.full_outer_join lk rk)
  ≡ₚ (λ i, (Some i, None)) <$> filter (at_index (λ k, k ∉ rk) lk) (seq 0 (length lk)).
Proof.
  apply NoDup_Permutation.
  - apply NoDup_filter, NoDup_full_outer_join.
  - apply NoDup_fmap_2_strong; [by intros j j' _ _ [= ->]|].
    apply NoDup_filter, NoDup_seq.
  - intros p. rewrite list_elem_of_filter, elem_of_full_outer_join, list_elem_of_fmap.
    setoid_rewrite list_elem_of_filter. setoid_rewrite elem_of_seq. unfold at_index.
    split.
    + intros [Hp2 (k & Hp)]. destruct p as [[i|] [j|]]; try done.
      exists i. split; [done|]. destruct Hp as [Hi Hn]. split; [by exists k|].
      apply lookup_lt_Some in Hi. lia.
    + intros (i & -> & (k & Hi & Hn) & _). split; [done|]. by exists k.
Qed.

Lemma at_index_fmap {A B} (f : A → B) (P : B → Prop) (l : list A) (j : nat) :
  at_index P (f <$> l) j ↔ at_index (λ x, P (f x)) l j.
Proof.
  unfold at_index. setoid_rewrite list_lookup_fmap_Some. naive_solver.
Qed.

(** The lines tagged [right_only] are the ledger lines whose key no order
    line carries, each once. *)
Lemma right_only_rows ls rs :
  filter (λ r, Merged._merge r = right_only)
    (joined_row ls rs <$> pd.full_outer_join (Shopify.tracking_number <$> ls)
                            (Shipping.tracking_number <$> rs))
  ≡ₚ orphan_shipment
       <$> filter (λ y, Shipping.tracking_number y ∉ (Shopify.tracking_number <$> ls)) rs.
Proof.
  rewrite filter_fmap.
  rewrite (filter_ext_in _ (λ p, p.1 = None)).
  2:{ intros p (k & Hp)%elem_of_full_outer_join. unfold joined_row.
      rewrite merge_row_indicator.
      destruct p as [[i|] [j|]]; cbn [fst snd mbind option_bind]; try done.
      - destruct Hp as [(x & _ & ->)%list_lookup_fmap_Some (y & _ & ->)%list_lookup_fmap_Some].
        done.
      - destruct Hp as [(x & _ & ->)%list_lookup_fmap_Some _]. done. }
  rewrite right_only_pairs, <- list_fmap_compose, length_fmap.
  rewrite (filter_ext_in _
    (at_index (λ y, Shipping.tracking_number y ∉ (Shopify.tracking_number <$> ls)) rs))
    by (intros j _;
        apply (at_index_fmap Shipping.tracking_number
                 (λ k, k ∉ (Shopify.tracking_number <$> ls)))).
  rewrite (seq_filter_lookup _ orphan_shipment); [done|].
  intros j y Hy. unfold compose, joined_row, orphan_shipment.
  cbn [fst snd mbind option_bind]. by rewrite Hy.
Qed.

(** The lines tagged [left_only] are the order lines whose key no ledger
    line carries, each once. *)
Lemma left_only_rows ls rs :
  filter (λ r, Merged._merge r = left_only)
    (joined_row ls rs <$> pd.full_outer_join (Shopify.tracking_number <$> ls)
                            (Shipping.tracking_number <$> rs))
  ≡ₚ orphan_order
       <$> filter (λ x, Shopify.tracking_number x ∉ (Shipping.tracking_number <$> rs)) ls.
Proof.
  rewrite filter_fmap.
  rewrite (filter_ext_in _ (λ p, p.2 = None)).
  2:{ intros p (k & Hp)%elem_of_full_outer_join. unfold joined_row.
      rewrite merge_row_indicator.
      destruct p as [[i|] [j|]]; cbn [fst snd mbind option_bind]; try done.
      - destruct Hp as [(x & _ & ->)%list_lookup_fmap_Some (y & _ & ->)%list_lookup_fmap_Some].
        done.
      - destruct Hp as [(x & _ & ->)%list_lookup_fmap_Some _]. done. }
  rewrite left_only_pairs, <- list_fmap_compose, length_fmap.
  rewrite (filter_ext_in _
    (at_index (λ x, Shopify.tracking_number x ∉ (Shipping.tracking_number <$> rs)) ls))
    by (intros j _;
        apply (at_index_fmap Shopify.tracking_number
                 (λ k, k ∉ (Shipping.tracking_number <$> rs)))).
  rewrite (seq_filter_lookup _ orphan_order); [done|].
  intros i x Hx. unfold compose, joined_row, orphan_order.
  cbn [fst snd mbind option_bind]. by rewrite Hx.
Qed.

Lemma run_rows s o merged_df report :
  run s o = Ok (merged_df, report) →
  rows merged_df
  = joined_row (rows o) (normalise <$> rows s)
      <$> pd.full_outer_join (Shopify.tracking_number <$> rows o)
            (Shipping.tracking_number <$> (normalise <$> rows s))
  ∧ unmatched_shipments report
    = shipment_entry <$> filter is_unmatched_shipment (rows merged_df)
  ∧ unmatched_orders report
    = order_entry <$> filter is_unmatched_order (rows merged_df).
Proof.
  intros (shipping_df & shopify_df & E & ->%identify_issues_inv)%run_inv.
  unfold report_of. cbn [unmatched_shipments unmatched_orders].
  pose proof (process_data_rows _ _ _ _ _ E) as (Hm & Hs & Ho).
  unfold order_keys, shipment_keys in Hm. rewrite Hs, Ho in Hm. done.
Qed.

(** X15. The unmatched shipments of a run that returns are, up to their
    order, the processed ledger lines whose tracking key no order line
    carries, one entry per line: no such line is left out and no other line
    is reported. *)
Theorem unmatched_shipments_are_orphans s o merged_df report :
  run s o = Ok (merged_df, report) →
  unmatched_shipments report
  ≡ₚ ledger_entry
       <$> filter (λ y, Shipping.tracking_number y ∉ (Shopify.tracking_number <$> rows o))
             (normalise <$> rows s).
Proof.
  intros (Hrows & Hs & _)%run_rows. rewrite Hs, Hrows.
  unfold is_unmatched_shipment. rewrite right_only_rows, <- list_fmap_compose. done.
Qed.

Lemma unmatched_shipments_are_orphans_witness :
  ∃ merged_df report,
    run sample_shipping sample_shopify = Ok (merged_df, report)
    ∧ length (unmatched_shipments report) = 1.
Proof.
  destruct (run sample_shipping sample_shopify) as [[merged_df report]|e] eqn:E;
    [|by vm_compute in E].
  exists merged_df, report. split; [done|].
  rewrite (unmatched_shipments_are_orphans _ _ _ _ E). by vm_compute.
Defined.

(** X16. The unmatched orders of a run that returns are, up to their order,
    the order lines whose tracking key contains "4PX" and is carried by no
    ledger line, one entry per line. *)
Theorem unmatched_orders_are_orphans s o merged_df report :
  run s o = Ok (merged_df, report) →
  unmatched_orders report
  ≡ₚ order_line_entry
       <$> filter (λ x, has_4PX_key x
                        ∧ Shopify.tracking_number x
                          ∉ (Shipping.tracking_number <$> (normalise <$> rows s)))
             (rows o).
Proof.
  intros (Hrows & _ & Ho)%run_rows. rewrite Ho, Hrows.
  rewrite (list_filter_iff is_unmatched_order
             (λ r, pd.str_contains_na_false "4PX" (Merged.tracking_number r) = true
                   ∧ Merged._merge r = left_only)).
  2:{ intros r. unfold is_unmatched_order.
      destruct (Merged.tracking_number r) as [t|]; simpl; split.
      - intros (? & t' & [= <-] & ?). done.
      - intros [? ?]. eauto.
      - intros (? & t' & [=] & ?).
      - intros [[=] _]. }
  rewrite <- list_filter_filter, left_only_rows, filter_fmap, <- list_fmap_compose,
    list_filter_filter.
  done.
Qed.

Lemma unmatched_orders_are_orphans_witness :
  ∃ merged_df report,
    run sample_shipping sample_shopify = Ok (merged_df, report)
    ∧ length (unmatched_orders report) = 1.
Proof.
  destruct (run sample_shipping sample_shopify) as [[merged_df report]|e] eqn:E;
    [|by vm_compute in E].
  exists merged_df, report. split; [done|].
  rewrite (unmatched_orders_are_orphans _ _ _ _ E). by vm_compute.
Defined.

(** * Running [process_data] on its own output *)

Lemma shipping_renames_values :
  map_Forall (λ _ canonical, shipping_renames !! canonical = None) shipping_renames.
Proof. apply (bool_decide_unpack _). by vm_compute. Qed.

Lemma shopify_renames_values :
  map_Forall (λ _ canonical, shopify_renames !! canonical = None) shopify_renames.
Proof. apply (bool_decide_unpack _). by vm_compute. Qed.

Lemma rename_columns_idempotent (mapper : gmap string string) (cols : list string) :
  map_Forall (λ _ v, mapper !! v = None) mapper →
  (λ c, default c (mapper !! c)) <$> ((λ c, default c (mapper !! c)) <$> cols)
  = (λ c, default c (mapper !! c)) <$> cols.
Proof.
  intros Hvals. rewrite <- list_fmap_compose. apply list_fmap_ext. intros _ c _.
  unfold compose. destruct (mapper !! c) as [v|] eqn:E; simpl.
  - by rewrite (Hvals c v E).
  - by rewrite E.
Qed.

Lemma rename_add_label (mapper : gmap string string) (c : string) (cols : list string) :
  mapper !! c = None →
  (λ c, default c (mapper !! c)) <$> cols = cols →
  (λ c, default c (mapper !! c)) <$> pd.add_label c cols = pd.add_label c cols.
Proof.
  intros Hc Hcols. unfold pd.add_label. case_decide; [done|].
  rewrite fmap_app, Hcols. csimpl. by rewrite Hc.
Qed.

Lemma add_label_present (c : string) (cols : list string) :
  c ∈ cols → pd.add_label c cols = cols.
Proof. intros H. unfold pd.add_label. by rewrite decide_True. Qed.

Lemma normalise_idempotent r : normalise (normalise r) = normalise r.
Proof. by destruct r. Qed.

Lemma processed_shipping_columns (s : DataFrame Shipping.row) :
  columns (pd.rename shipping_renames (mkDataFrame (shipping_labels s) (normalise <$> rows s)))
  = shipping_labels s.
Proof.
  cbn [pd.rename columns]. unfold shipping_labels.
  apply rename_add_label; [by vm_compute|]. apply rename_add_label; [by vm_compute|].
  apply rename_columns_idempotent, shipping_renames_values.
Qed.

Lemma processed_shopify_frame (o : DataFrame Shopify.row) :
  pd.rename shopify_renames (pd.rename shopify_renames o) = pd.rename shopify_renames o.
Proof.
  unfold pd.rename. cbn [columns rows]. f_equal.
  apply rename_columns_idempotent, shopify_renames_values.
Qed.

(** X17. [process_data] leaves its own output alone: called on the processed
    ledger and the processed order export it returned, it returns the same
    merged frame and the same two frames again. *)
Theorem process_data_idempotent s o merged_df shipping_df shopify_df :
  process_data s o = Ok (merged_df, shipping_df, shopify_df) →
  process_data shipping_df shopify_df = Ok (merged_df, shipping_df, shopify_df).
Proof.
  intros H. pose proof (process_data_Ok_inv _ _ _ H) as (Hs & Ho & Hfree).
  apply process_data_inv in H as (-> & -> & ->).
  set (s' := mkDataFrame (shipping_labels s) (normalise <$> rows s)).
  set (o' := pd.rename shopify_renames o).
  assert (Hsc : columns (pd.rename shipping_renames s') = shipping_labels s)
    by apply processed_shipping_columns.
  assert (Ho' : pd.rename shopify_renames o' = o') by apply processed_shopify_frame.
  assert (Hok : columns_ok s' o').
  { unfold columns_ok, reserved_free. rewrite Hsc, Ho'. split; [|done].
    eapply Forall_impl; [exact Hs|]. intros c Hc. unfold shipping_labels.
    rewrite !elem_of_add_label. tauto. }
  rewrite (process_data_Ok _ _ Hok).
  assert (Hlabels : shipping_labels s' = shipping_labels s).
  { unfold shipping_labels at 1. rewrite Hsc. unfold shipping_labels.
    rewrite (add_label_present "shipping_cost_usd")
      by (rewrite !elem_of_add_label; tauto).
    apply add_label_present. rewrite !elem_of_add_label. tauto. }
  assert (Hrows : normalise <$> rows s' = normalise <$> rows s).
  { cbn [s' rows]. rewrite <- list_fmap_compose. apply list_fmap_ext.
    intros _ r _. apply normalise_idempotent. }
  unfold merged_labels. rewrite Ho', Hlabels, Hrows. done.
Qed.

Lemma process_data_idempotent_witness :
  process_data sample_ledger sample_orders = Ok (sample_merged, sample_ledger, sample_orders).
Proof.
  apply (process_data_idempotent sample_shipping sample_shopify). by vm_compute.
Defined.

(** * A matched pair, end to end *)

(** X18. For an order line and a ledger line of the input with the same
    tracking key, the merged frame has a line tagged [both] that carries the
    order's columns unchanged, the ledger's cost, weight and date, the cost
    converted to USD, the translated country, and the two metrics computed
    from the order's payout and product cost and the converted cost. *)
Theorem matched_line_end_to_end s o merged_df shipping_df shopify_df :
  process_data s o = Ok (merged_df, shipping_df, shopify_df) →
  ∀ i j x y, rows o !! i = Some x → rows s !! j = Some y →
    Shopify.tracking_number x = Shipping.tracking_number y →
    let usd := fmul (Shipping.shipping_cost_rmb y) RMB_TO_USD in
    ∃ r, r ∈ rows merged_df
      ∧ Merged._merge r = both
      ∧ Merged.order_number r = Shopify.order_number x
      ∧ Merged.order_date r = Shopify.order_date x
      ∧ Merged.tracking_number r = Shopify.tracking_number x
      ∧ Merged.net_payout r = Shopify.net_payout x
      ∧ Merged.country r = Shopify.country x
      ∧ Merged.product_cost r = Shopify.product_cost x
      ∧ Merged.shipping_cost_rmb r = Shipping.shipping_cost_rmb y
      ∧ Merged.shipping_cost_usd r = usd
      ∧ Merged.weight_kg r = Shipping.weight_kg y
      ∧ Merged.ship_date r = Shipping.ship_date y
      ∧ Merged.country_from_shipping r = translate_country (Shipping.country_chinese y)
      ∧ Merged.shipping_pct r
        = fround2 (fmul (fdiv usd (Shopify.net_payout x)) (Fin 100))
      ∧ Merged.profit r
        = fsub (fsub (Shopify.net_payout x) (Shopify.product_cost x)) usd.
Proof.
  intros H i j x y Hx Hy Hk. cbn zeta.
  pose proof (process_data_rows _ _ _ _ _ H) as (Hrows & Hs & Ho).
  assert (Hx' : rows shopify_df !! i = Some x) by (by rewrite Ho).
  assert (Hy' : rows shipping_df !! j = Some (normalise y))
    by (by rewrite Hs, list_lookup_fmap, Hy).
  exists (joined_row (rows shopify_df) (rows shipping_df) (Some i, Some j)). split.
  - rewrite Hrows. apply list_elem_of_fmap_2. apply elem_of_full_outer_join.
    exists (Shopify.tracking_number x). unfold order_keys, shipment_keys.
    rewrite !list_lookup_fmap, Hx', Hy'. simpl. by rewrite Hk.
  - unfold joined_row. cbn [fst snd mbind option_bind]. rewrite Hx', Hy'.
    by repeat split.
Qed.

Lemma matched_line_end_to_end_witness :
  ∃ r, r ∈ rows sample_merged
    ∧ Merged._merge r = both
    ∧ Merged.shipping_cost_usd r = Fin (139 # 10)
    ∧ Merged.shipping_pct r = Fin (139 # 5)
    ∧ Merged.profit r = Fin (261 # 10)
    ∧ Merged.country_from_shipping r = Some "United States".
Proof.
  assert (process_data sample_shipping sample_shopify
          = Ok (sample_merged, sample_ledger, sample_orders)) as E by (by vm_compute).
  destruct (matched_line_end_to_end _ _ _ _ _ E 0 0 _ _ eq_refl eq_refl eq_refl)
    as (r & Hr & Hb & _ & _ & _ & _ & _ & _ & _ & Husd & _ & _ & Hc & Hpct & Hprofit).
  exists r. split; [done|]. split; [done|].
  rewrite Husd, Hpct, Hprofit, Hc. by vm_compute.
Defined.

(** * Which label a failing [process_data] names *)

(** X19. [process_data] names the first label it does not find. Without the
    cost column it raises [KeyError] on the cost, whatever else is missing;
    with the cost and without the country label it raises on the country
    label; with both, the ledger columns it selects for the join that are
    missing are all named at once, in the order of the selection. *)
Theorem process_data_first_missing s o :
  let sc := columns (pd.rename shipping_renames s) in
  ("shipping_cost_rmb" ∉ sc → process_data s o = Raise (KeyError ["shipping_cost_rmb"]))
  ∧ ("shipping_cost_rmb" ∈ sc → "country_chinese" ∉ sc →
       process_data s o = Raise (KeyError ["country_chinese"]))
  ∧ ("shipping_cost_rmb" ∈ sc → "country_chinese" ∈ sc →
       filter (λ c, c ∉ sc) ["tracking_number"; "weight_kg"; "ship_date"] ≠ [] →
       process_data s o
       = Raise (KeyError (filter (λ c, c ∉ sc) ["tracking_number"; "weight_kg"; "ship_date"]))).
Proof.
  cbn zeta. set (sc := columns (pd.rename shipping_renames s)).
  split; [|split].
  - intros Hn. unfold process_data. by rewrite getitem_Raise.
  - intros Hc Hn. unfold process_data. rewrite getitem_Ok by done.
    cbn [mbind result_bind]. rewrite getitem_Raise; [done|].
    rewrite columns_setitem, elem_of_add_label. by intros [|].
  - intros Hc Hl Hne. unfold process_data. rewrite getitem_Ok by done.
    cbn [mbind result_bind].
    rewrite getitem_Ok by (rewrite columns_setitem, elem_of_add_label; auto).
    cbn [mbind result_bind]. unfold pd.select.
    rewrite !columns_setitem. fold sc.
    assert (filter (λ c, c ∉ pd.add_label "country_from_shipping"
                                 (pd.add_label "shipping_cost_usd" sc))
              ["tracking_number"; "shipping_cost_usd"; "shipping_cost_rmb"; "weight_kg";
               "ship_date"; "country_from_shipping"]
            = filter (λ c, c ∉ sc) ["tracking_number"; "weight_kg"; "ship_date"]) as ->.
    { rewrite !filter_cons, !filter_nil.
      rewrite (decide_False (P := "shipping_cost_usd" ∉ _))
        by (rewrite !elem_of_add_label; tauto).
      rewrite (decide_False (P := "shipping_cost_rmb" ∉ _))
        by (rewrite !elem_of_add_label; tauto).
      rewrite (decide_False (P := "country_from_shipping" ∉ _))
        by (rewrite !elem_of_add_label; tauto).
      assert (∀ c, c ≠ "country_from_shipping" → c ≠ "shipping_cost_usd" →
                c ∉ pd.add_label "country_from_shipping" (pd.add_label "shipping_cost_usd" sc)
                ↔ c ∉ sc) as Hiff.
      { intros c H1 H2. rewrite !elem_of_add_label. tauto. }
      destruct (decide ("tracking_number" ∉ sc)), (decide ("weight_kg" ∉ sc)),
        (decide ("ship_date" ∉ sc));
        repeat (first [rewrite decide_True by (by apply Hiff)
                      | rewrite decide_False by (by rewrite Hiff)]);
        done. }
    destruct (filter (λ c, c ∉ sc) ["tracking_number"; "weight_kg"; "ship_date"]); done.
Qed.

Lemma process_data_first_missing_witness :
  process_data weightless_shipping sample_shopify = Raise (KeyError ["weight_kg"]).
Proof.
  destruct (process_data_first_missing weightless_shipping sample_shopify) as (_ & _ & H).
  rewrite H; [by vm_compute|label_in|label_in|by vm_compute].
Defined.
